(** * flux_led light platform: command dispatch and state derivation

    A shallow embedding of [light.py]: the effect tables, the entity
    constructor, the read-only properties and the [_async_turn_on]
    dispatch, together with the properties proved about them. *)

From Stdlib Require Import ZArith Lia.
From Stdlib Require PrimFloat SpecFloat FloatOps Uint63.
From stdpp Require Import base option list strings gmap sorting.

Local Open Scope Z_scope.
Local Open Scope string_scope.

(** ** Constants imported by the module *)

(** Attribute and effect names of [homeassistant.components.light]. *)
Definition EFFECT_COLORLOOP : string := "colorloop".
Definition EFFECT_RANDOM : string := "random".

(** Feature bits of [homeassistant.components.light]. *)
Definition SUPPORT_EFFECT : Z := 4.
Definition SUPPORT_TRANSITION : Z := 32.

(** Native colour-mode names of [flux_led.const]. *)
Definition FLUX_COLOR_MODE_RGB : string := "RGB".
Definition FLUX_COLOR_MODE_RGBW : string := "RGBW".
Definition FLUX_COLOR_MODE_RGBWW : string := "RGBWW".
Definition FLUX_COLOR_MODE_CCT : string := "CCT".
Definition FLUX_COLOR_MODE_DIM : string := "DIM".

(** Colour modes of [homeassistant.components.light] that the module names. *)
Inductive ColorMode :=
  | COLOR_MODE_BRIGHTNESS
  | COLOR_MODE_COLOR_TEMP
  | COLOR_MODE_ONOFF
  | COLOR_MODE_RGB
  | COLOR_MODE_RGBW
  | COLOR_MODE_RGBWW.

#[global] Instance ColorMode_eq_dec : EqDecision ColorMode.
Proof. solve_decision. Defined.

Definition ColorMode_to_nat (m : ColorMode) : nat :=
  match m with
  | COLOR_MODE_BRIGHTNESS => 0 | COLOR_MODE_COLOR_TEMP => 1
  | COLOR_MODE_ONOFF => 2 | COLOR_MODE_RGB => 3
  | COLOR_MODE_RGBW => 4 | COLOR_MODE_RGBWW => 5
  end%nat.

Definition ColorMode_of_nat (n : nat) : option ColorMode :=
  match n with
  | 0 => Some COLOR_MODE_BRIGHTNESS | 1 => Some COLOR_MODE_COLOR_TEMP
  | 2 => Some COLOR_MODE_ONOFF | 3 => Some COLOR_MODE_RGB
  | 4 => Some COLOR_MODE_RGBW | 5 => Some COLOR_MODE_RGBWW
  | _ => None
  end%nat.

#[global] Instance ColorMode_countable : Countable ColorMode.
Proof.
  apply (inj_countable ColorMode_to_nat ColorMode_of_nat).
  by intros [].
Defined.

(** ** Module-level tables *)

Definition SUPPORT_FLUX_LED : Z := SUPPORT_TRANSITION.

Definition FLUX_COLOR_MODE_TO_HASS : gmap string ColorMode :=
  <[FLUX_COLOR_MODE_DIM := COLOR_MODE_BRIGHTNESS]>
  (<[FLUX_COLOR_MODE_CCT := COLOR_MODE_COLOR_TEMP]>
  (<[FLUX_COLOR_MODE_RGBWW := COLOR_MODE_RGBWW]>
  (<[FLUX_COLOR_MODE_RGBW := COLOR_MODE_RGBW]>
  (<[FLUX_COLOR_MODE_RGB := COLOR_MODE_RGB]> ∅)))).

Definition EFFECT_SUPPORT_MODES : gset ColorMode :=
  {[ COLOR_MODE_RGB; COLOR_MODE_RGBW; COLOR_MODE_RGBWW ]}.

Definition EFFECT_RED_FADE : string := "red_fade".
Definition EFFECT_GREEN_FADE : string := "green_fade".
Definition EFFECT_BLUE_FADE : string := "blue_fade".
Definition EFFECT_YELLOW_FADE : string := "yellow_fade".
Definition EFFECT_CYAN_FADE : string := "cyan_fade".
Definition EFFECT_PURPLE_FADE : string := "purple_fade".
Definition EFFECT_WHITE_FADE : string := "white_fade".
Definition EFFECT_RED_GREEN_CROSS_FADE : string := "rg_cross_fade".
Definition EFFECT_RED_BLUE_CROSS_FADE : string := "rb_cross_fade".
Definition EFFECT_GREEN_BLUE_CROSS_FADE : string := "gb_cross_fade".
Definition EFFECT_COLORSTROBE : string := "colorstrobe".
Definition EFFECT_RED_STROBE : string := "red_strobe".
Definition EFFECT_GREEN_STROBE : string := "green_strobe".
Definition EFFECT_BLUE_STROBE : string := "blue_strobe".
Definition EFFECT_YELLOW_STROBE : string := "yellow_strobe".
Definition EFFECT_CYAN_STROBE : string := "cyan_strobe".
Definition EFFECT_PURPLE_STROBE : string := "purple_strobe".
Definition EFFECT_WHITE_STROBE : string := "white_strobe".
Definition EFFECT_COLORJUMP : string := "colorjump".
Definition EFFECT_CUSTOM : string := "custom".

(** The items of a dict display, in the order they are written. *)
Definition EFFECT_MAP_items : list (string * Z) :=
  [ (EFFECT_COLORLOOP, 0x25);
    (EFFECT_RED_FADE, 0x26);
    (EFFECT_GREEN_FADE, 0x27);
    (EFFECT_BLUE_FADE, 0x28);
    (EFFECT_YELLOW_FADE, 0x29);
    (EFFECT_CYAN_FADE, 0x2A);
    (EFFECT_PURPLE_FADE, 0x2B);
    (EFFECT_WHITE_FADE, 0x2C);
    (EFFECT_RED_GREEN_CROSS_FADE, 0x2D);
    (EFFECT_RED_BLUE_CROSS_FADE, 0x2E);
    (EFFECT_GREEN_BLUE_CROSS_FADE, 0x2F);
    (EFFECT_COLORSTROBE, 0x30);
    (EFFECT_RED_STROBE, 0x31);
    (EFFECT_GREEN_STROBE, 0x32);
    (EFFECT_BLUE_STROBE, 0x33);
    (EFFECT_YELLOW_STROBE, 0x34);
    (EFFECT_CYAN_STROBE, 0x35);
    (EFFECT_PURPLE_STROBE, 0x36);
    (EFFECT_WHITE_STROBE, 0x37);
    (EFFECT_COLORJUMP, 0x38) ].

(** A dict built from items written left to right: a later item with the
    same key replaces the earlier one. *)
Definition dict_of_items `{Countable K} {V} (items : list (K * V)) : gmap K V :=
  foldl (λ m kv, <[kv.1 := kv.2]> m) ∅ items.

Definition EFFECT_MAP : gmap string Z := dict_of_items EFFECT_MAP_items.

(** [{v: k for k, v in EFFECT_MAP.items()}] *)
Definition EFFECT_ID_NAME : gmap Z string :=
  dict_of_items ((λ kv, (kv.2, kv.1)) <$> EFFECT_MAP_items).

Definition EFFECT_CUSTOM_CODE : Z := 0x60.

(** [sorted] on strings: code-point order, as [String.leb] has it. *)
Definition str_le (a b : string) : Prop := String.leb a b = true.

#[global] Instance str_le_dec a b : Decision (str_le a b).
Proof. unfold str_le. apply _. Defined.

Definition sorted (l : list string) : list string := merge_sort str_le l.

Definition FLUX_EFFECT_LIST : list string :=
  (sorted (EFFECT_MAP_items.*1) ++ [EFFECT_RANDOM])%list.

(** The one exception the module and its libraries raise here. *)
Inductive Exception :=
  | ValueError (msg : string).

(** ** Collaborators

    The module calls into libraries that are not part of it.  They are taken
    as interfaces; every statement below holds for all their instances. *)

Definition RGB : Type := Z * Z * Z.
Definition RGBW : Type := Z * Z * Z * Z.
Definition RGBWW : Type := Z * Z * Z * Z * Z.

(** [homeassistant.util.color] *)
Class ColorUtil := {
  HS : Type;
  color_hs_to_RGB : HS → RGB;
  color_RGB_to_hs : Z → Z → Z → HS;
  color_temperature_kelvin_to_mired : Z → Z;
  color_temperature_mired_to_kelvin : Z → Z;
}.

(** [flux_led.utils].  The white-levels conversion rejects a temperature or
    a brightness outside its range by raising; what it is given decides. *)
Class FluxUtils := {
  color_temp_to_white_levels : Z → Z → Exception + Z * Z;
  rgbcw_brightness : RGBWW → Z → RGBWW;
  rgbcw_to_rgbwc : RGBWW → RGBWW;
  rgbw_brightness : RGBW → Z → RGBW;
  rgbww_brightness : RGBWW → Z → RGBWW;
}.

(** [.const]: the one constant of the package that the dispatch reads. *)
Class Const := {
  DEFAULT_EFFECT_SPEED : Z;
}.

(** The state that [self._device] reports between two refreshes. *)
Module Device.
Record t := {
  is_on : bool;
  color_modes : gset string;
  color_mode : string;
  rgb : RGB;
  rgbw : RGBW;
  rgbcw : RGBWW;
  rgbww : RGBWW;
  brightness : Z;
  color_temp : Z;
  min_temp : Z;
  max_temp : Z;
  preset_pattern_num : Z;
  getWhiteTemperature : Z * Z;
}.
End Device.

(** The awaitable commands of [self._device].  [async_set_levels] takes
    [r, g, b, w, w2] positionally or by keyword, all optional, and the
    keyword [brightness]. *)
Inductive Command :=
  | async_turn_on
  | async_set_white_temp (kelvin brightness : Z)
  | async_set_levels (r g b w w2 : option Z) (brightness : option Z)
  | async_set_preset_pattern (pattern speed : Z)
  | async_set_custom_pattern (colors : list RGB) (speed_pct : Z) (transition : string).

#[global] Instance Command_eq_dec : EqDecision Command.
Proof. solve_decision. Defined.

(** [async_set_levels] called with a starred tuple, with or without the
    keyword [brightness]: the tuple is unpacked into the leading positional
    parameters. *)
Definition async_set_levels_star3 (t : RGB) (brightness : option Z) : Command :=
  let '(r, g, b) := t in
  async_set_levels (Some r) (Some g) (Some b) None None brightness.

Definition async_set_levels_star4 (t : RGBW) : Command :=
  let '(r, g, b, w) := t in
  async_set_levels (Some r) (Some g) (Some b) (Some w) None None.

Definition async_set_levels_star5 (t : RGBWW) : Command :=
  let '(r, g, b, w, w2) := t in
  async_set_levels (Some r) (Some g) (Some b) (Some w) (Some w2) None.

(** What surrounds a call: how the device's reported state looks once a
    command has been awaited, and the numbers [random] hands out.  A
    command is taken to be accepted: a transport failure is the device's own
    exception, passes through the entity unchanged, and is left out. *)
Class Host := {
  device_after : Command → Device.t → Device.t;
  random_source : nat → Z;
}.

(** The keyword bag of [_async_turn_on].  The light service validates it
    before the entity sees it, so an attribute that is present holds a value
    of its type; [other] lists the names of any further attributes in the
    bag (the entity advertises transitions), whose values are never read. *)
Module Kwargs.
Record t := {
  brightness : option Z;
  color_temp : option Z;
  rgb_color : option RGB;
  rgbw_color : option RGBW;
  rgbww_color : option RGBWW;
  effect : option string;
  other : list string;
}.

(** [not kwargs] *)
Definition is_empty (kw : t) : bool :=
  bool_decide (brightness kw = None) && bool_decide (color_temp kw = None)
  && bool_decide (rgb_color kw = None) && bool_decide (rgbw_color kw = None)
  && bool_decide (rgbww_color kw = None) && bool_decide (effect kw = None)
  && bool_decide (other kw = []).

Definition empty : t :=
  {| brightness := None; color_temp := None; rgb_color := None;
     rgbw_color := None; rgbww_color := None; effect := None; other := [] |}.

(** A bag that holds a brightness and nothing else. *)
Definition only_brightness (b : Z) : t :=
  {| brightness := Some b; color_temp := None; rgb_color := None;
     rgbw_color := None; rgbww_color := None; effect := None; other := [] |}.
End Kwargs.

(** The attributes [__init__] stores on the entity. *)
Module Entity.
Record t := {
  _attr_supported_features : Z;
  _attr_min_mireds : Z;
  _attr_max_mireds : Z;
  _attr_supported_color_modes : gset ColorMode;
  _attr_effect_list : option (list string);
  _custom_effect_colors : list RGB;
  _custom_effect_speed_pct : Z;
  _custom_effect_transition : string;
}.
End Entity.

(** ** Effects of a method body

    A body runs against the entity's attributes, the device's reported
    state, the commands awaited so far (oldest first) and the count of
    random draws; it falls through to the next statement, executes a
    [return], or raises. *)
Inductive Flow (A : Type) :=
  | Next (a : A)
  | Return
  | Raise (e : Exception).
Arguments Next {A} a.
Arguments Return {A}.
Arguments Raise {A} e.

Record World := {
  entity : Entity.t;
  device : Device.t;
  sent : list Command;
  drawn : nat;
}.

Definition M (A : Type) : Type := World → Flow A * World.

#[global] Instance M_ret : MRet M := λ A a w, (Next a, w).

#[global] Instance M_bind : MBind M := λ A B f m w,
  match m w with
  | (Next a, w') => f a w'
  | (Return, w') => (Return, w')
  | (Raise e, w') => (Raise e, w')
  end.

Definition return_ {A} : M A := λ w, (Return, w).
Definition raise {A} (e : Exception) : M A := λ w, (Raise e, w).

(** A library call that returns or raises. *)
Definition calling {A} (result : Exception + A) : M A :=
  match result with inl e => raise e | inr a => mret a end.

(** [if c: body] *)
Definition when (c : bool) (body : M unit) : M unit :=
  if c then body else mret tt.

(** [if KEY in kwargs: body], the body reading [kwargs[KEY]] *)
Definition when_in {A} (o : option A) (body : A → M unit) : M unit :=
  match o with Some a => body a | None => mret tt end.

(** A [def] whose body only ever returns [None]. *)
Definition def (body : M unit) : M unit := λ w,
  match body w with
  | (Next _, w') | (Return, w') => (Next tt, w')
  | (Raise e, w') => (Raise e, w')
  end.

Definition self : M Entity.t := λ w, (Next (entity w), w).

(** Reading a property of the entity, which reads [self._device]. *)
Definition read {A} (property : Device.t → A) : M A := λ w, (Next (property (device w)), w).

Section effects.
Context `{Host}.

(** [await self._device.<command>] *)
Definition await (c : Command) : M unit := λ w,
  (Next tt,
   {| entity := entity w; device := device_after c (device w);
      sent := sent w ++ [c]; drawn := drawn w |}).

(** [random.randint(a, b)] *)
Definition randint (a b : Z) : M Z := λ w,
  (Next (a + random_source (drawn w) `mod` (b - a + 1)),
   {| entity := entity w; device := device w;
      sent := sent w; drawn := S (drawn w) |}).
End effects.

(** [str] of a colour mode, for the message of the exception. *)
Definition ColorMode_str (m : ColorMode) : string :=
  match m with
  | COLOR_MODE_BRIGHTNESS => "brightness"
  | COLOR_MODE_COLOR_TEMP => "color_temp"
  | COLOR_MODE_ONOFF => "onoff"
  | COLOR_MODE_RGB => "rgb"
  | COLOR_MODE_RGBW => "rgbw"
  | COLOR_MODE_RGBWW => "rgbww"
  end.

(** ** class FluxLight *)
Module FluxLight.
Section FluxLight.
Context `{ColorUtil, FluxUtils, Const, Host}.

(** [__init__].  The coordinator, the unique id and the name go to the
    base classes; [dev] is the device the coordinator holds. *)
Definition __init__ (dev : Device.t)
    (custom_effect_colors : list RGB)
    (custom_effect_speed_pct : Z)
    (custom_effect_transition : string) : Entity.t :=
  let supported_features := SUPPORT_FLUX_LED in
  let min_mireds := color_temperature_kelvin_to_mired (Device.max_temp dev) + 1 in
  let max_mireds := color_temperature_kelvin_to_mired (Device.min_temp dev) in
  let supported_color_modes : gset ColorMode :=
    set_map (λ mode, default COLOR_MODE_ONOFF (FLUX_COLOR_MODE_TO_HASS !! mode))
            (Device.color_modes dev) in
  let '(supported_features, effect_list) :=
    if bool_decide (supported_color_modes ∩ EFFECT_SUPPORT_MODES ≠ ∅) then
      (Z.lor supported_features SUPPORT_EFFECT,
       if bool_decide (custom_effect_colors ≠ [])
       then Some (FLUX_EFFECT_LIST ++ [EFFECT_CUSTOM])%list
       else Some FLUX_EFFECT_LIST)
    else (supported_features, None) in
  {| Entity._attr_supported_features := supported_features;
     Entity._attr_min_mireds := min_mireds;
     Entity._attr_max_mireds := max_mireds;
     Entity._attr_supported_color_modes := supported_color_modes;
     Entity._attr_effect_list := effect_list;
     Entity._custom_effect_colors := custom_effect_colors;
     Entity._custom_effect_speed_pct := custom_effect_speed_pct;
     Entity._custom_effect_transition := custom_effect_transition |}.

(** Modelled from the spec: [is_on] is inherited from [FluxEntity], whose
    module is not in the sources; the spec has the turn-on sequence test
    whether the device is currently off (the device's [is_on]). *)
Definition is_on (dev : Device.t) : bool := Device.is_on dev.

Definition brightness (dev : Device.t) : Z := Device.brightness dev.

Definition color_temp (dev : Device.t) : Z :=
  color_temperature_kelvin_to_mired (Device.color_temp dev).

Definition rgb_color (dev : Device.t) : RGB :=
  let '(r, g, b) := Device.rgb dev in
  color_hs_to_RGB (color_RGB_to_hs r g b).

Definition rgbw_color (dev : Device.t) : RGBW := Device.rgbw dev.

Definition rgbww_color (dev : Device.t) : RGBWW := Device.rgbcw dev.

Definition rgbwc_color (dev : Device.t) : RGBWW := Device.rgbww dev.

Definition color_mode (dev : Device.t) : ColorMode :=
  default COLOR_MODE_ONOFF (FLUX_COLOR_MODE_TO_HASS !! Device.color_mode dev).

Definition effect (dev : Device.t) : option string :=
  let current_mode := Device.preset_pattern_num dev in
  if bool_decide (current_mode = EFFECT_CUSTOM_CODE) then Some EFFECT_CUSTOM
  else EFFECT_ID_NAME !! current_mode.

Definition _async_turn_on (kwargs : Kwargs.t) : M unit := def (
  on ← read is_on;
  when (negb on) (
    await async_turn_on;;
    when (Kwargs.is_empty kwargs) return_);;

  brightness ← match Kwargs.brightness kwargs with
               | Some b => mret b
               | None => read brightness
               end;

  (* Handle switch to CCT Color Mode *)
  when_in (Kwargs.color_temp kwargs) (λ color_temp_mired,
    let color_temp_kelvin := color_temperature_mired_to_kelvin color_temp_mired in
    mode ← read color_mode;
    when (bool_decide (mode ≠ COLOR_MODE_RGBWW)) (
      await (async_set_white_temp color_temp_kelvin brightness);;
      return_);;
    white ← read Device.getWhiteTemperature;
    let brightness := default (white.2) (Kwargs.brightness kwargs) in
    '(cold, warm) ← calling (color_temp_to_white_levels color_temp_kelvin brightness);
    await (async_set_levels (Some 0) (Some 0) (Some 0) (Some warm) (Some cold) None);;
    return_);;
  (* Handle switch to RGB Color Mode *)
  when_in (Kwargs.rgb_color kwargs) (λ rgb_color,
    await (async_set_levels_star3 rgb_color (Some brightness));;
    return_);;
  (* Handle switch to RGBW Color Mode *)
  when_in (Kwargs.rgbw_color kwargs) (λ rgbw_color,
    let rgbw :=
      if bool_decide (is_Some (Kwargs.brightness kwargs))
      then rgbw_brightness rgbw_color brightness
      else rgbw_color in
    await (async_set_levels_star4 rgbw);;
    return_);;
  (* Handle switch to RGBWW Color Mode *)
  when_in (Kwargs.rgbww_color kwargs) (λ rgbww_color,
    let rgbcw :=
      if bool_decide (is_Some (Kwargs.brightness kwargs))
      then rgbcw_brightness rgbww_color brightness
      else rgbww_color in
    await (async_set_levels_star5 (rgbcw_to_rgbwc rgbcw));;
    return_);;
  when_in (Kwargs.effect kwargs) (λ effect,
    (* Random color effect *)
    when (bool_decide (effect = EFFECT_RANDOM)) (
      r ← randint 0 255;
      g ← randint 0 255;
      b ← randint 0 255;
      await (async_set_levels (Some r) (Some g) (Some b) None None None);;
      return_);;
    (* Custom effect *)
    when (bool_decide (effect = EFFECT_CUSTOM)) (
      this ← self;
      when (bool_decide (Entity._custom_effect_colors this ≠ [])) (
        await (async_set_custom_pattern
                 (Entity._custom_effect_colors this)
                 (Entity._custom_effect_speed_pct this)
                 (Entity._custom_effect_transition this)));;
      return_);;
    (* Effect selection *)
    when_in (EFFECT_MAP !! effect) (λ pattern,
      await (async_set_preset_pattern pattern DEFAULT_EFFECT_SPEED);;
      return_);;
    raise (ValueError ("Unknown effect " ++ effect)));;
  (* Handle brightness adjustment in CCT Color Mode *)
  mode ← read color_mode;
  when (bool_decide (mode = COLOR_MODE_COLOR_TEMP)) (
    kelvin ← read Device.color_temp;
    await (async_set_white_temp kelvin brightness);;
    return_);;
  (* Handle brightness adjustment in RGB Color Mode *)
  mode ← read color_mode;
  when (bool_decide (mode = COLOR_MODE_RGB)) (
    rgb ← read rgb_color;
    await (async_set_levels_star3 rgb (Some brightness));;
    return_);;
  (* Handle brightness adjustment in RGBW Color Mode *)
  mode ← read color_mode;
  when (bool_decide (mode = COLOR_MODE_RGBW)) (
    rgbw ← read rgbw_color;
    await (async_set_levels_star4 (rgbw_brightness rgbw brightness));;
    return_);;
  (* Handle brightness adjustment in RGBWW Color Mode *)
  mode ← read color_mode;
  when (bool_decide (mode = COLOR_MODE_RGBWW)) (
    rgbwc ← read rgbwc_color;
    await (async_set_levels_star5 (rgbww_brightness rgbwc brightness));;
    return_);;
  (* Handle Brightness Only Color Mode *)
  mode ← read color_mode;
  when (bool_decide (mode = COLOR_MODE_BRIGHTNESS)) (
    await (async_set_levels None None None (Some brightness) None None);;
    return_);;
  mode ← read color_mode;
  raise (ValueError ("Unsupported color mode " ++ ColorMode_str mode))).

Definition async_set_custom_effect
    (colors : list RGB) (speed_pct : Z) (transition : string) : M unit := def (
  await (async_set_custom_pattern colors speed_pct transition)).

End FluxLight.
End FluxLight.

(** ** Observing a call *)

(** The commands a body awaits when run in [w], oldest first. *)
Definition commands {A} (body : M A) (w : World) : list Command :=
  drop (length (sent w)) (sent (body w).2).

(** How a body ends when run in [w]. *)
Definition outcome {A} (body : M A) (w : World) : Flow A := (body w).1.

Section observing.
Context `{ColorUtil, FluxUtils, Const, Host}.

(** The turn-on sequence: what is awaited before any attribute is looked
    at, and the device state the rest of the call then reads. *)
Definition turn_on_sequence (dev : Device.t) : list Command :=
  if FluxLight.is_on dev then [] else [async_turn_on].

Definition device_at_dispatch (dev : Device.t) : Device.t :=
  if FluxLight.is_on dev then dev else device_after async_turn_on dev.

(** The world once [cmds] have been awaited and [n] numbers drawn. *)
Definition after (cmds : list Command) (n : nat) (w : World) : World :=
  {| entity := entity w;
     device := foldl (λ d c, device_after c d) (device w) cmds;
     sent := sent w ++ cmds;
     drawn := (n + drawn w)%nat |}.
End observing.

(** ** The dispatch as the specification words it

    Section 4.2 lists six rules in priority order; each issues at most one
    command or signals an error.  [spec_rule] picks the first rule that
    matches; [spec_dispatch] is what that rule alone does. *)
Inductive Rule :=
  | RuleColorTemp (mired : Z)
  | RuleRGB (rgb : RGB)
  | RuleRGBW (rgbw : RGBW)
  | RuleRGBWW (rgbww : RGBWW)
  | RuleEffect (name : string)
  | RuleBrightnessOnly.

Definition spec_rule (kw : Kwargs.t) : Rule :=
  match Kwargs.color_temp kw with Some mired => RuleColorTemp mired | None =>
  match Kwargs.rgb_color kw with Some rgb => RuleRGB rgb | None =>
  match Kwargs.rgbw_color kw with Some rgbw => RuleRGBW rgbw | None =>
  match Kwargs.rgbww_color kw with Some rgbww => RuleRGBWW rgbww | None =>
  match Kwargs.effect kw with Some name => RuleEffect name | None =>
  RuleBrightnessOnly
  end end end end end.

(** What one rule does: how it ends, the command it issues if any, and how
    many random numbers it draws. *)
Record Verdict := {
  ends : Flow unit;
  issues : option Command;
  draws : nat;
}.

Definition issue (c : Command) : Verdict :=
  {| ends := Next tt; issues := Some c; draws := 0 |}.
Definition nothing : Verdict :=
  {| ends := Next tt; issues := None; draws := 0 |}.
Definition invalid (msg : string) : Verdict :=
  {| ends := Raise (ValueError msg); issues := None; draws := 0 |}.
Definition raises (e : Exception) : Verdict :=
  {| ends := Raise e; issues := None; draws := 0 |}.

Section spec.
Context `{ColorUtil, FluxUtils, Const, Host}.

Definition spec_dispatch (rule : Rule) (given : option Z)
    (this : Entity.t) (dev : Device.t) (n : nat) : Verdict :=
  let brightness := default (Device.brightness dev) given in
  match rule with
  | RuleColorTemp mired =>
      let kelvin := color_temperature_mired_to_kelvin mired in
      if bool_decide (FluxLight.color_mode dev = COLOR_MODE_RGBWW) then
        let white := default ((Device.getWhiteTemperature dev).2) given in
        match color_temp_to_white_levels kelvin white with
        | inr levels =>
            issue (async_set_levels (Some 0) (Some 0) (Some 0)
                     (Some (levels.2)) (Some (levels.1)) None)
        | inl e => raises e
        end
      else issue (async_set_white_temp kelvin brightness)
  | RuleRGB rgb =>
      issue (async_set_levels_star3 rgb (Some brightness))
  | RuleRGBW rgbw =>
      issue (async_set_levels_star4
               match given with Some x => rgbw_brightness rgbw x | None => rgbw end)
  | RuleRGBWW rgbcw =>
      issue (async_set_levels_star5
               (rgbcw_to_rgbwc
                  match given with Some x => rgbcw_brightness rgbcw x | None => rgbcw end))
  | RuleEffect name =>
      if bool_decide (name = EFFECT_RANDOM) then
        let pick i := 0 + random_source (i + n)%nat `mod` (255 - 0 + 1) in
        {| ends := Next tt;
           issues := Some (async_set_levels (Some (pick 0%nat)) (Some (pick 1%nat))
                             (Some (pick 2%nat)) None None None);
           draws := 3 |}
      else if bool_decide (name = EFFECT_CUSTOM) then
        match Entity._custom_effect_colors this with
        | [] => nothing
        | colors =>
            issue (async_set_custom_pattern colors
                     (Entity._custom_effect_speed_pct this)
                     (Entity._custom_effect_transition this))
        end
      else
        match EFFECT_MAP !! name with
        | Some pattern => issue (async_set_preset_pattern pattern DEFAULT_EFFECT_SPEED)
        | None => invalid ("Unknown effect " ++ name)
        end
  | RuleBrightnessOnly =>
      match FluxLight.color_mode dev with
      | COLOR_MODE_COLOR_TEMP =>
          issue (async_set_white_temp (Device.color_temp dev) brightness)
      | COLOR_MODE_RGB =>
          issue (async_set_levels_star3 (FluxLight.rgb_color dev) (Some brightness))
      | COLOR_MODE_RGBW =>
          issue (async_set_levels_star4
                   (rgbw_brightness (FluxLight.rgbw_color dev) brightness))
      | COLOR_MODE_RGBWW =>
          issue (async_set_levels_star5
                   (rgbww_brightness (FluxLight.rgbwc_color dev) brightness))
      | COLOR_MODE_BRIGHTNESS =>
          issue (async_set_levels None None None (Some brightness) None None)
      | COLOR_MODE_ONOFF =>
          invalid ("Unsupported color mode " ++ ColorMode_str COLOR_MODE_ONOFF)
      end
  end.

(** The whole intent: the turn-on sequence, then the first matching rule,
    unless the device was off and the bag is empty. *)
Definition spec_turn_on (kw : Kwargs.t) (w : World) : Flow unit * World :=
  let w1 := after (turn_on_sequence (device w)) 0 w in
  if negb (FluxLight.is_on (device w)) && Kwargs.is_empty kw then (Next tt, w1)
  else
    let v := spec_dispatch (spec_rule kw) (Kwargs.brightness kw)
               (entity w1) (device w1) (drawn w1) in
    (ends v, after (option_list (issues v)) (draws v) w1).

(** What the first matching rule decides for the bag [kw] in [w], the
    turn-on sequence being over. *)
Definition spec_verdict (kw : Kwargs.t) (w : World) : Verdict :=
  spec_dispatch (spec_rule kw) (Kwargs.brightness kw)
    (entity w) (device_at_dispatch (device w)) (drawn w).

(** The intent stops after the turn-on sequence. *)
Definition stops_early (kw : Kwargs.t) (w : World) : bool :=
  negb (FluxLight.is_on (device w)) && Kwargs.is_empty kw.
End spec.


(** ** The life of an entity

    After construction the entity is driven by service calls, while the
    coordinator replaces the device's reported state at each refresh. *)
Inductive Event :=
  | Call_turn_on (kwargs : Kwargs.t)
  | Call_set_custom_effect (colors : list RGB) (speed_pct : Z) (transition : string)
  | Refresh (dev : Device.t).

Section life.
Context `{ColorUtil, FluxUtils, Const, Host}.

Definition step (w : World) (ev : Event) : World :=
  match ev with
  | Call_turn_on kwargs => (FluxLight._async_turn_on kwargs w).2
  | Call_set_custom_effect colors speed_pct transition =>
      (FluxLight.async_set_custom_effect colors speed_pct transition w).2
  | Refresh dev =>
      {| entity := entity w; device := dev; sent := sent w; drawn := drawn w |}
  end.

Definition life (w : World) (history : list Event) : World := foldl step w history.

(** The world right after [async_setup_entry] has built the entity. *)
Definition constructed (dev : Device.t) (colors : list RGB)
    (speed_pct : Z) (transition : string) : World :=
  {| entity := FluxLight.__init__ dev colors speed_pct transition;
     device := dev; sent := []; drawn := 0 |}.
End life.

(** [name in self.effect_list] *)
Definition advertises (this : Entity.t) (name : string) : Prop :=
  ∃ effects, Entity._attr_effect_list this = Some effects ∧ name ∈ effects.

(** ** A reference instance of the collaborators

    Used to run the entity on concrete inputs. *)
Module Reference.

(** Modelled from the spec: [homeassistant.util.color] is not in the
    sources.  Section 4.1 gives both temperature conversions as
    [round(1_000_000 / x)]; halves are rounded up here. *)
Definition reciprocal (x : Z) : Z := (2 * 1000000 + x) / (2 * x).

(** Modelled from the spec: the hue/saturation round trip of section 4.2,
    in exact integer arithmetic.  Hue is in thousandths of a degree,
    saturation in thousandths of a percent; the way back is taken at full
    value. *)
Definition RGB_to_hs (r g b : Z) : Z * Z :=
  let maxc := Z.max r (Z.max g b) in
  let minc := Z.min r (Z.min g b) in
  let rangec := maxc - minc in
  if bool_decide (rangec = 0) then (0, 0)
  else
    let h :=
      if bool_decide (r = maxc) then 60000 * (g - b) / rangec
      else if bool_decide (g = maxc) then 120000 + 60000 * (b - r) / rangec
      else 240000 + 60000 * (r - g) / rangec in
    (h `mod` 360000, 100000 * rangec / maxc).

Definition hs_to_RGB (hs : Z * Z) : RGB :=
  let '(h, s) := hs in
  let i := h / 60000 in
  let f := h - 60000 * i in
  let p := 255 * (100000 - s) / 100000 in
  let q := 255 * (6000000000 - s * f) / 6000000000 in
  let t := 255 * (6000000000 - s * (60000 - f)) / 6000000000 in
  match i `mod` 6 with
  | 0 => (255, t, p)
  | 1 => (q, 255, p)
  | 2 => (p, 255, t)
  | 3 => (p, q, 255)
  | 4 => (t, p, 255)
  | _ => (255, p, q)
  end.

Definition color_util : ColorUtil :=
  {| HS := Z * Z;
     color_hs_to_RGB := hs_to_RGB;
     color_RGB_to_hs := RGB_to_hs;
     color_temperature_kelvin_to_mired := reciprocal;
     color_temperature_mired_to_kelvin := reciprocal |}.

(** Modelled from the spec: [flux_led.utils] is not in the sources.
    Section 4.1: a linear cross-fade between the two white channels over
    the kelvin range, here 2700 to 6500; proportional rescaling that keeps
    a zero vector; a fixed permutation between the two white orders.  The
    cross-fade raises for a temperature outside the kelvin range and for a
    brightness outside 0 to 255. *)
Definition white_levels (kelvin brightness : Z) : Exception + Z * Z :=
  if negb (bool_decide (2700 ≤ kelvin ≤ 6500)%Z) then
    inl (ValueError "Temperature out of range")
  else if negb (bool_decide (0 ≤ brightness ≤ 255)%Z) then
    inl (ValueError "Brightness out of range")
  else
    let warm := brightness * (6500 - kelvin) / (6500 - 2700) in
    inr (brightness - warm, warm).

Definition scale (brightness peak c : Z) : Z :=
  if bool_decide (peak = 0) then c else c * brightness / peak.

Definition scale4 (rgbw : RGBW) (brightness : Z) : RGBW :=
  let '(r, g, b, w) := rgbw in
  let peak := Z.max (Z.max r g) (Z.max b w) in
  (scale brightness peak r, scale brightness peak g,
   scale brightness peak b, scale brightness peak w).

Definition scale5 (rgbxx : RGBWW) (brightness : Z) : RGBWW :=
  let '(r, g, b, x, y) := rgbxx in
  let peak := Z.max (Z.max (Z.max r g) (Z.max b x)) y in
  (scale brightness peak r, scale brightness peak g,
   scale brightness peak b, scale brightness peak x, scale brightness peak y).

Definition swap_whites (rgbcw : RGBWW) : RGBWW :=
  let '(r, g, b, c, w) := rgbcw in (r, g, b, w, c).

Definition flux_utils : FluxUtils :=
  {| color_temp_to_white_levels := white_levels;
     rgbcw_brightness := scale5;
     rgbcw_to_rgbwc := swap_whites;
     rgbw_brightness := scale4;
     rgbww_brightness := scale5 |}.

Definition const : Const := {| DEFAULT_EFFECT_SPEED := 50 |}.

(** Modelled from the spec: section 5 has a command confirmed as sent
    without waiting for the device to change, so the reported state stays
    as it is until the next refresh. *)
Definition host : Host :=
  {| device_after := λ _ dev, dev;
     random_source := λ n, 17 + 101 * Z.of_nat n |}.

(** A five-channel bulb, in a given native mode, on or off. *)
Definition bulb (mode : string) (on : bool) : Device.t :=
  {| Device.is_on := on;
     Device.color_modes := {[ FLUX_COLOR_MODE_RGBWW; FLUX_COLOR_MODE_CCT ]};
     Device.color_mode := mode;
     Device.rgb := (200, 100, 50);
     Device.rgbw := (200, 100, 50, 40);
     Device.rgbcw := (200, 100, 50, 30, 40);
     Device.rgbww := (200, 100, 50, 40, 30);
     Device.brightness := 180;
     Device.color_temp := 3000;
     Device.min_temp := 2700;
     Device.max_temp := 6500;
     Device.preset_pattern_num := 0x61;
     Device.getWhiteTemperature := (3000, 90) |}.


(** The world right after an entity has been built for such a bulb. *)
Definition world (mode : string) (on : bool) (colors : list RGB) : World :=
  @constructed color_util (bulb mode on) colors 50 "gradual".

(** Bags holding one attribute. *)
Definition only_color_temp (mired : Z) : Kwargs.t :=
  {| Kwargs.brightness := None; Kwargs.color_temp := Some mired;
     Kwargs.rgb_color := None; Kwargs.rgbw_color := None;
     Kwargs.rgbww_color := None; Kwargs.effect := None; Kwargs.other := [] |}.

Definition only_rgb_color (rgb : RGB) : Kwargs.t :=
  {| Kwargs.brightness := None; Kwargs.color_temp := None;
     Kwargs.rgb_color := Some rgb; Kwargs.rgbw_color := None;
     Kwargs.rgbww_color := None; Kwargs.effect := None; Kwargs.other := [] |}.

Definition only_effect (name : string) : Kwargs.t :=
  {| Kwargs.brightness := None; Kwargs.color_temp := None;
     Kwargs.rgb_color := None; Kwargs.rgbw_color := None;
     Kwargs.rgbww_color := None; Kwargs.effect := Some name; Kwargs.other := [] |}.

(** A bag holding both a colour temperature and an rgb colour. *)
Definition color_temp_and_rgb (mired : Z) (rgb : RGB) : Kwargs.t :=
  {| Kwargs.brightness := None; Kwargs.color_temp := Some mired;
     Kwargs.rgb_color := Some rgb; Kwargs.rgbw_color := None;
     Kwargs.rgbww_color := None; Kwargs.effect := None; Kwargs.other := [] |}.

(** The entity run against the reference collaborators. *)
Definition turn_on (kwargs : Kwargs.t) : M unit :=
  @FluxLight._async_turn_on color_util flux_utils const host kwargs.
End Reference.

(** ** Further sample inputs *)
Module Sample.

(** The reference bulb reporting another kelvin value, or another preset
    pattern number. *)
Definition at_kelvin (kelvin : Z) (dev : Device.t) : Device.t :=
  {| Device.is_on := Device.is_on dev;
     Device.color_modes := Device.color_modes dev;
     Device.color_mode := Device.color_mode dev;
     Device.rgb := Device.rgb dev;
     Device.rgbw := Device.rgbw dev;
     Device.rgbcw := Device.rgbcw dev;
     Device.rgbww := Device.rgbww dev;
     Device.brightness := Device.brightness dev;
     Device.color_temp := kelvin;
     Device.min_temp := Device.min_temp dev;
     Device.max_temp := Device.max_temp dev;
     Device.preset_pattern_num := Device.preset_pattern_num dev;
     Device.getWhiteTemperature := Device.getWhiteTemperature dev |}.

Definition with_pattern (pattern : Z) (dev : Device.t) : Device.t :=
  {| Device.is_on := Device.is_on dev;
     Device.color_modes := Device.color_modes dev;
     Device.color_mode := Device.color_mode dev;
     Device.rgb := Device.rgb dev;
     Device.rgbw := Device.rgbw dev;
     Device.rgbcw := Device.rgbcw dev;
     Device.rgbww := Device.rgbww dev;
     Device.brightness := Device.brightness dev;
     Device.color_temp := Device.color_temp dev;
     Device.min_temp := Device.min_temp dev;
     Device.max_temp := Device.max_temp dev;
     Device.preset_pattern_num := pattern;
     Device.getWhiteTemperature := Device.getWhiteTemperature dev |}.

(** A bag holding an rgbw colour and nothing else. *)
Definition only_rgbw_color (rgbw : RGBW) : Kwargs.t :=
  {| Kwargs.brightness := None; Kwargs.color_temp := None;
     Kwargs.rgb_color := None; Kwargs.rgbw_color := Some rgbw;
     Kwargs.rgbww_color := None; Kwargs.effect := None; Kwargs.other := [] |}.


(** The custom-effect service run against the reference collaborators. *)
Definition set_custom_effect (colors : list RGB) (speed_pct : Z)
    (transition : string) : M unit :=
  @FluxLight.async_set_custom_effect Reference.host colors speed_pct transition.
End Sample.

(** ** The colour conversions in binary64

    [homeassistant.util.color] computes hue and saturation with [colorsys]
    on binary64 floats, rounds them to three decimals and truncates the
    channels on the way back.  The library is not in the sources; this
    instance follows its computation step by step on the kernel's binary64
    floats, to run the colour accessor the way the host runs it. *)
Module Binary64.

Definition float : Set := PrimFloat.float.

(** [float(n)] for an integer of moderate size. *)
Definition of_int (n : Z) : float :=
  if (n <? 0)%Z then PrimFloat.opp (PrimFloat.of_uint63 (Uint63.of_Z (- n)))
  else PrimFloat.of_uint63 (Uint63.of_Z n).

(** [int(x)]: truncation towards zero. *)
Definition int (x : float) : Z :=
  match FloatOps.Prim2SF x with
  | SpecFloat.S754_finite sign m e =>
      let magnitude :=
        if (0 <=? e)%Z then Z.pos m * 2 ^ e else Z.pos m / 2 ^ (- e) in
      if sign then - magnitude else magnitude
  | _ => 0
  end.

(** [math.floor(x)] *)
Definition floor (x : float) : Z :=
  match FloatOps.Prim2SF x with
  | SpecFloat.S754_finite sign m e =>
      if (0 <=? e)%Z then
        if sign then - (Z.pos m * 2 ^ e) else Z.pos m * 2 ^ e
      else if sign then (- Z.pos m) / 2 ^ (- e) else Z.pos m / 2 ^ (- e)
  | _ => 0
  end.

(** The integer nearest to [num / den], halves going to the even one. *)
Definition round_half_even (num den : Z) : Z :=
  let q := num / den in
  let r := num `mod` den in
  if (2 * r <? den)%Z then q
  else if (den <? 2 * r)%Z then q + 1
  else if Z.even q then q else q + 1.

(** [round(x, 3)]: the exact value of [x] is rounded to three decimals,
    halves to even, and the decimal is read back as the nearest float. *)
Definition round3 (x : float) : float :=
  match FloatOps.Prim2SF x with
  | SpecFloat.S754_finite sign m e =>
      let thousandths :=
        if (0 <=? e)%Z then 1000 * Z.pos m * 2 ^ e
        else round_half_even (1000 * Z.pos m) (2 ^ (- e)) in
      PrimFloat.div (of_int (if sign then - thousandths else thousandths))
        (of_int 1000)
  | _ => x
  end.

(** [max(a, b, c)] and [min(a, b, c)] keep the first of equal arguments. *)
Definition max3 (a b c : float) : float :=
  let m := if PrimFloat.ltb a b then b else a in
  if PrimFloat.ltb m c then c else m.

Definition min3 (a b c : float) : float :=
  let m := if PrimFloat.ltb b a then b else a in
  if PrimFloat.ltb c m then c else m.

(** [x % 1.0] for [x] strictly between -1 and 1, the values [h / 6.0]
    takes. *)
Definition mod1 (x : float) : float :=
  if PrimFloat.ltb x (of_int 0) then PrimFloat.add x (of_int 1)
  else if PrimFloat.eqb x (of_int 0) then of_int 0
  else x.

(** [colorsys.rgb_to_hsv] *)
Definition rgb_to_hsv (r g b : float) : float * float * float :=
  let maxc := max3 r g b in
  let minc := min3 r g b in
  let v := maxc in
  if PrimFloat.eqb minc maxc then (of_int 0, of_int 0, v)
  else
    let s := PrimFloat.div (PrimFloat.sub maxc minc) maxc in
    let rc := PrimFloat.div (PrimFloat.sub maxc r) (PrimFloat.sub maxc minc) in
    let gc := PrimFloat.div (PrimFloat.sub maxc g) (PrimFloat.sub maxc minc) in
    let bc := PrimFloat.div (PrimFloat.sub maxc b) (PrimFloat.sub maxc minc) in
    let h :=
      if PrimFloat.eqb r maxc then PrimFloat.sub bc gc
      else if PrimFloat.eqb g maxc then
        PrimFloat.sub (PrimFloat.add (of_int 2) rc) bc
      else PrimFloat.sub (PrimFloat.add (of_int 4) gc) rc in
    let h := mod1 (PrimFloat.div h (of_int 6)) in
    (h, s, v).

(** [colorsys.hsv_to_rgb] *)
Definition hsv_to_rgb (h s v : float) : float * float * float :=
  if PrimFloat.eqb s (of_int 0) then (v, v, v)
  else
    let i := int (PrimFloat.mul h (of_int 6)) in
    let f := PrimFloat.sub (PrimFloat.mul h (of_int 6)) (of_int i) in
    let p := PrimFloat.mul v (PrimFloat.sub (of_int 1) s) in
    let q := PrimFloat.mul v (PrimFloat.sub (of_int 1) (PrimFloat.mul s f)) in
    let t :=
      PrimFloat.mul v
        (PrimFloat.sub (of_int 1)
           (PrimFloat.mul s (PrimFloat.sub (of_int 1) f))) in
    match i `mod` 6 with
    | 0 => (v, t, p)
    | 1 => (q, v, p)
    | 2 => (p, v, t)
    | 3 => (p, q, v)
    | 4 => (t, p, v)
    | _ => (v, p, q)
    end.

(** [color_RGB_to_hs]: the first two of [color_RGB_to_hsv]. *)
Definition color_RGB_to_hs (iR iG iB : Z) : float * float :=
  let '(h, s, _) :=
    rgb_to_hsv (PrimFloat.div (of_int iR) (of_int 255))
      (PrimFloat.div (of_int iG) (of_int 255))
      (PrimFloat.div (of_int iB) (of_int 255)) in
  (round3 (PrimFloat.mul h (of_int 360)), round3 (PrimFloat.mul s (of_int 100))).

(** [color_hs_to_RGB]: [color_hsv_to_RGB] at value 100. *)
Definition color_hs_to_RGB (hs : float * float) : RGB :=
  let '(iH, iS) := hs in
  let '(r, g, b) :=
    hsv_to_rgb (PrimFloat.div iH (of_int 360)) (PrimFloat.div iS (of_int 100))
      (PrimFloat.div (of_int 100) (of_int 100)) in
  (int (PrimFloat.mul r (of_int 255)), int (PrimFloat.mul g (of_int 255)),
   int (PrimFloat.mul b (of_int 255))).

(** Both temperature conversions: [math.floor(1000000 / x)], for [x]
    other than zero. *)
Definition reciprocal (x : Z) : Z :=
  floor (PrimFloat.div (of_int 1000000) (of_int x)).

Definition color_util : ColorUtil :=
  Build_ColorUtil (float * float) color_hs_to_RGB color_RGB_to_hs
    reciprocal reciprocal.

(** The colour accessor on binary64 floats. *)
Definition rgb_color (dev : Device.t) : RGB :=
  @FluxLight.rgb_color color_util dev.
End Binary64.

(** ** The command budget of an event *)

(** The most commands an event can add to the log: the turn-on command and
    one more for a turn-on call, one for a custom-effect call, none for a
    refresh. *)
Definition command_budget (ev : Event) : nat :=
  match ev with
  | Call_turn_on _ => 2
  | Call_set_custom_effect _ _ _ => 1
  | Refresh _ => 0
  end.

(** ** Proof automation *)

(** Both sides of [dispatch_run] end in a pair of a flow and a world; the
    worlds differ only in how the appended commands and the draw count
    are bracketed. *)
Ltac same_world :=
  cbn [ends issues draws option_list foldl default id fst snd
       entity device sent drawn Nat.add];
  rewrite ?app_nil_r, <- ?(assoc_L (++));
  reflexivity.

(** Comparisons of two known colour modes are evaluated. *)
Ltac known_tests :=
  repeat match goal with
  | |- context [bool_decide (?a = ?b)] =>
      let v := eval vm_compute in (bool_decide (a = b)) in
      match v with
      | true => change (bool_decide (a = b)) with true
      | false => change (bool_decide (a = b)) with false
      end
  end.

(** ** The effect tables *)

Example flux_effect_list_head : take 3 FLUX_EFFECT_LIST = ["blue_fade"; "blue_strobe"; "colorjump"].
Proof. vm_compute. reflexivity. Qed.

Example effect_map_lookup : EFFECT_MAP !! "colorjump" = Some 0x38.
Proof. vm_compute. reflexivity. Qed.

Example effect_id_lookup : EFFECT_ID_NAME !! 0x25 = Some "colorloop".
Proof. vm_compute. reflexivity. Qed.

Example effect_map_size : size EFFECT_MAP = 20%nat.
Proof. vm_compute. reflexivity. Qed.


Section dict_of_items.
Context `{Countable K} {V : Type}.
Implicit Types (items : list (K * V)) (m : gmap K V).

Lemma foldl_insert_lookup items m k v :
  NoDup (items.*1) →
  foldl (λ m kv, <[kv.1 := kv.2]> m) m items !! k = Some v ↔
  (k, v) ∈ items ∨ ((k ∉ items.*1) ∧ m !! k = Some v).
Proof.
  revert m. induction items as [|[k' v'] items IH]; intros m Hnd; simpl.
  - split; [intros ?; right; split; [apply not_elem_of_nil | done]
           | intros [Hin | [_ ?]]; [by apply elem_of_nil in Hin | done]].
  - apply NoDup_cons in Hnd as [Hk' Hnd].
    rewrite (IH _ Hnd), lookup_insert. split.
    + intros [Hin | [Hnin Hlk]]; [left; by apply elem_of_cons; right |].
      case_decide as Hd; simplify_eq.
      * left. apply elem_of_cons. by left.
      * right. split; [| done]. intros [->|?]%elem_of_cons; done.
    + intros [[Heq|Hin]%elem_of_cons | [Hnin Hlk]].
      * simplify_eq. right. split; [done |]. by rewrite decide_True.
      * by left.
      * right. apply not_elem_of_cons in Hnin as [Hne Hnin].
        split; [done |]. by rewrite decide_False.
Qed.

Lemma dict_of_items_lookup items k v :
  NoDup (items.*1) →
  dict_of_items items !! k = Some v ↔ (k, v) ∈ items.
Proof.
  intros Hnd. unfold dict_of_items. rewrite foldl_insert_lookup by done.
  rewrite lookup_empty. split; [intros [?|[_ ?]]; done | by left].
Qed.
End dict_of_items.

Lemma EFFECT_MAP_names_NoDup : NoDup (EFFECT_MAP_items.*1).
Proof. apply (bool_decide_unpack _). vm_compute. exact I. Qed.

Lemma EFFECT_MAP_codes_NoDup : NoDup (((λ kv : string * Z, (kv.2, kv.1)) <$> EFFECT_MAP_items).*1).
Proof. apply (bool_decide_unpack _). vm_compute. exact I. Qed.

Lemma EFFECT_MAP_spec (name : string) (code : Z) :
  EFFECT_MAP !! name = Some code ↔ (name, code) ∈ EFFECT_MAP_items.
Proof. apply dict_of_items_lookup, EFFECT_MAP_names_NoDup. Qed.

Lemma EFFECT_ID_NAME_spec (name : string) (code : Z) :
  EFFECT_ID_NAME !! code = Some name ↔ (name, code) ∈ EFFECT_MAP_items.
Proof.
  unfold EFFECT_ID_NAME.
  rewrite dict_of_items_lookup by apply EFFECT_MAP_codes_NoDup.
  rewrite list_elem_of_fmap. split.
  - intros ([n c] & Heq & Hin). by simplify_eq/=.
  - intros Hin. by exists (name, code).
Qed.

(** Every item of the table carries a code between 0x25 and 0x38. *)
Lemma EFFECT_MAP_items_range (name : string) (code : Z) :
  (name, code) ∈ EFFECT_MAP_items → (0x25 ≤ code ≤ 0x38)%Z.
Proof.
  unfold EFFECT_MAP_items.
  rewrite !elem_of_cons, elem_of_nil. intros H.
  repeat (destruct H as [H|H]; [injection H as -> ->; lia |]). done.
Qed.

(** Every code between 0x25 and 0x38 is the code of some item. *)
Lemma EFFECT_MAP_items_cover (code : Z) :
  (0x25 ≤ code ≤ 0x38)%Z → ∃ name, (name, code) ∈ EFFECT_MAP_items.
Proof.
  intros Hr.
  assert (Hc : code ∈ (EFFECT_MAP_items.*2)).
  { assert (Hn : ∃ n : nat, code = 0x25 + Z.of_nat n ∧ (n < 20)%nat).
    { exists (Z.to_nat (code - 0x25)). lia. }
    destruct Hn as (n & -> & Hn).
    do 20 (destruct n as [|n]; [by apply (bool_decide_unpack _) |]). lia. }
  apply list_elem_of_fmap in Hc as ([n c] & -> & Hin). by exists n.
Qed.

(** ** Running the dispatch *)

Section dispatch.
Context `{ColorUtil, FluxUtils, Const, Host}.

Lemma after_after cs1 n1 cs2 n2 w :
  after cs2 n2 (after cs1 n1 w) = after (cs1 ++ cs2) (n2 + n1) w.
Proof.
  unfold after; simpl. by rewrite foldl_app, <- (assoc_L (++)), Nat.add_assoc.
Qed.

Lemma sent_after cs n w : sent (after cs n w) = (sent w ++ cs)%list.
Proof. done. Qed.

Lemma device_after_turn_on_sequence w :
  device (after (turn_on_sequence (device w)) 0 w) = device_at_dispatch (device w).
Proof.
  unfold turn_on_sequence, device_at_dispatch.
  by destruct (FluxLight.is_on (device w)).
Qed.

(** [_async_turn_on] runs the turn-on sequence and then does what the
    first matching rule of the specification does. *)
Lemma dispatch_run kw w :
  FluxLight._async_turn_on kw w = spec_turn_on kw w.
Proof.
  destruct kw as [kb kct krgb krgbw krgbww keff koth].
  destruct w as [e d s n].
  unfold FluxLight._async_turn_on, spec_turn_on, spec_rule, spec_dispatch, def.
  unfold mbind, M_bind, read, when_in, when, await, randint, return_, raise,
    self, mret, M_ret.
  unfold after, turn_on_sequence, issue, nothing, invalid.
  cbn [entity device sent drawn negb andb foldl
       Kwargs.brightness Kwargs.color_temp Kwargs.rgb_color
       Kwargs.rgbw_color Kwargs.rgbww_color Kwargs.effect Kwargs.other].
  destruct (FluxLight.is_on d) eqn:Hon; cbn [negb andb foldl];
    [| destruct (Kwargs.is_empty _) eqn:Hemp; [same_world |]].
  all: destruct kct as [mired|];
    [ destruct kb; cbn [default id entity device sent drawn];
      rewrite bool_decide_not; case_bool_decide as Hm; cbn [negb];
      unfold calling, raise, mret, M_ret, raises;
      try destruct (color_temp_to_white_levels _ _) as [err|[cold warm]];
      same_world |].
  all: destruct krgb as [rgb|]; [destruct kb; same_world |].
  all: destruct krgbw as [rgbw|];
    [ destruct kb;
      rewrite ?(bool_decide_true (is_Some (Some _))) by done;
      rewrite ?(bool_decide_false (is_Some None)) by (by intros [??]);
      same_world |].
  all: destruct krgbww as [rgbww|];
    [ destruct kb;
      rewrite ?(bool_decide_true (is_Some (Some _))) by done;
      rewrite ?(bool_decide_false (is_Some None)) by (by intros [??]);
      same_world |].
  all: destruct keff as [name|];
    [ destruct kb; cbn [default id entity device sent drawn];
      (case_bool_decide as Hrandom; [same_world |]);
      (case_bool_decide as Hcustom;
        [ cbn [entity]; destruct (Entity._custom_effect_colors e);
          [ rewrite bool_decide_false by (intros Hn; by apply Hn)
          | rewrite bool_decide_true by done ]; same_world |]);
      destruct (EFFECT_MAP !! name); same_world |].
  all: destruct kb; cbn [default id entity device sent drawn].
  all: destruct (FluxLight.color_mode _) eqn:Hmode;
    repeat (cbn [entity device sent drawn]; rewrite ?Hmode; progress known_tests);
    cbn [entity device sent drawn]; rewrite ?Hmode; same_world.
Qed.

Lemma commands_after {A} (body : M A) w cs n (flow : Flow A) :
  body w = (flow, after cs n w) → commands body w = cs.
Proof.
  intros Hrun. unfold commands. rewrite Hrun. cbn [snd].
  by rewrite sent_after, drop_app_length.
Qed.

(** The commands of a call: the turn-on sequence, then at most the one
    command of the first matching rule. *)
Lemma turn_on_commands kw w :
  commands (FluxLight._async_turn_on kw) w =
  (turn_on_sequence (device w) ++
   if stops_early kw w then [] else option_list (issues (spec_verdict kw w)))%list.
Proof.
  unfold stops_early, spec_verdict.
  rewrite <- device_after_turn_on_sequence.
  destruct (negb _ && _) eqn:Hstop.
  - apply (commands_after _ _ _ 0%nat (Next tt)).
    rewrite dispatch_run. unfold spec_turn_on. rewrite Hstop.
    by rewrite app_nil_r.
  - eapply commands_after.
    rewrite dispatch_run. unfold spec_turn_on. rewrite Hstop.
    rewrite after_after. reflexivity.
Qed.

Lemma turn_on_outcome kw w :
  outcome (FluxLight._async_turn_on kw) w =
  if stops_early kw w then Next tt else ends (spec_verdict kw w).
Proof.
  unfold outcome, stops_early, spec_verdict.
  rewrite <- device_after_turn_on_sequence.
  rewrite dispatch_run. unfold spec_turn_on.
  by destruct (negb _ && _).
Qed.

Lemma turn_on_entity kw w :
  entity (FluxLight._async_turn_on kw w).2 = entity w.
Proof.
  rewrite dispatch_run. unfold spec_turn_on.
  by destruct (negb _ && _).
Qed.

(** A bag that holds an attribute is not empty. *)
Lemma not_stops_early kw w :
  Kwargs.is_empty kw = false → stops_early kw w = false.
Proof. intros Hne. unfold stops_early. rewrite Hne. apply andb_false_r. Qed.

Lemma is_empty_color_temp kw x :
  Kwargs.color_temp kw = Some x → Kwargs.is_empty kw = false.
Proof.
  intros Hx. unfold Kwargs.is_empty. rewrite Hx.
  rewrite (bool_decide_false (Some x = None)) by done.
  by rewrite andb_false_r.
Qed.

Lemma is_empty_rgb_color kw x :
  Kwargs.rgb_color kw = Some x → Kwargs.is_empty kw = false.
Proof.
  intros Hx. unfold Kwargs.is_empty. rewrite Hx.
  rewrite (bool_decide_false (Some x = None)) by done.
  by rewrite andb_false_r.
Qed.

Lemma is_empty_effect kw x :
  Kwargs.effect kw = Some x → Kwargs.is_empty kw = false.
Proof.
  intros Hx. unfold Kwargs.is_empty. rewrite Hx.
  rewrite (bool_decide_false (Some x = None)) by done.
  by rewrite andb_false_r.
Qed.

End dispatch.

(** ** The turn-on dispatch *)

Section turn_on.
Context `{ColorUtil, FluxUtils, Const, Host}.


(** No rule issues the turn-on command. *)
Lemma spec_dispatch_not_turn_on rule given this dev n :
  issues (spec_dispatch rule given this dev n) ≠ Some async_turn_on.
Proof.
  destruct rule as [mired|[[r g] b]|rgbw|rgbcw|name|]; cbn [spec_dispatch].
  - case_bool_decide; [| done].
    by destruct (color_temp_to_white_levels _ _).
  - done.
  - cbn. by destruct (match given with Some _ => _ | None => _ end) as [[[??]?]?].
  - cbn. by destruct (rgbcw_to_rgbwc _) as [[[[??]?]?]?].
  - repeat case_bool_decide; [done | by destruct (Entity._custom_effect_colors this) |].
    by destruct (EFFECT_MAP !! name).
  - destruct (FluxLight.color_mode dev); cbn; try done.
    + by destruct (FluxLight.rgb_color dev) as [[??]?].
    + by destruct (rgbw_brightness _ _) as [[[??]?]?].
    + by destruct (rgbww_brightness _ _) as [[[[??]?]?]?].
Qed.

(** C2.  If the device is off, the turn-on command is issued first, and
    with an empty bag nothing else is issued.  If the device is on, the
    turn-on command is not issued; a bag holding only a brightness (128
    in the claim, any value here) takes the brightness-only branch of the
    current mode, which re-issues the current colour at that brightness,
    and which for a mode without such a branch raises. *)
Theorem turn_on_when_off_and_when_on (kw : Kwargs.t) (w : World) :
  let run := FluxLight._async_turn_on kw in
  let dev := device w in
  (FluxLight.is_on dev = false →
     (∃ rest, commands run w = async_turn_on :: rest) ∧
     (Kwargs.is_empty kw = true →
        outcome run w = Next tt ∧ commands run w = [async_turn_on])) ∧
  (FluxLight.is_on dev = true →
     (async_turn_on ∉ commands run w) ∧
     ∀ b : Z, kw = Kwargs.only_brightness b →
       match FluxLight.color_mode dev with
       | COLOR_MODE_COLOR_TEMP =>
           outcome run w = Next tt ∧
           commands run w = [async_set_white_temp (Device.color_temp dev) b]
       | COLOR_MODE_RGB =>
           outcome run w = Next tt ∧
           commands run w = [async_set_levels_star3 (FluxLight.rgb_color dev) (Some b)]
       | COLOR_MODE_RGBW =>
           outcome run w = Next tt ∧
           commands run w =
             [async_set_levels_star4 (rgbw_brightness (FluxLight.rgbw_color dev) b)]
       | COLOR_MODE_RGBWW =>
           outcome run w = Next tt ∧
           commands run w =
             [async_set_levels_star5 (rgbww_brightness (FluxLight.rgbwc_color dev) b)]
       | COLOR_MODE_BRIGHTNESS =>
           outcome run w = Next tt ∧
           commands run w = [async_set_levels None None None (Some b) None None]
       | COLOR_MODE_ONOFF =>
           outcome run w = Raise (ValueError "Unsupported color mode onoff") ∧
           commands run w = []
       end).
Proof.
  cbn zeta. rewrite turn_on_outcome, turn_on_commands.
  unfold turn_on_sequence, stops_early, spec_verdict, device_at_dispatch.
  split; intros Hon; rewrite Hon; cbn [negb andb app].
  - split; [eauto |]. by intros ->.
  - split.
    + intros Hin.
      pose proof (spec_dispatch_not_turn_on (spec_rule kw) (Kwargs.brightness kw)
                    (entity w) (device w) (drawn w)) as Hne.
      destruct (issues _) as [c|]; cbn in Hin.
      * apply list_elem_of_singleton in Hin. congruence.
      * by apply elem_of_nil in Hin.
    + intros b ->. cbn [spec_rule Kwargs.only_brightness Kwargs.color_temp
        Kwargs.rgb_color Kwargs.rgbw_color Kwargs.rgbww_color Kwargs.effect
        Kwargs.brightness spec_dispatch default id].
      by destruct (FluxLight.color_mode (device w)).
Qed.

(** C3, as amended.  The behaviour of a call depends on the bag only
    through its first matching rule in the order colour temperature, rgb,
    rgbw, rgbww, effect, brightness-only, through its brightness and
    through its being empty.  After the turn-on sequence, which is one
    turn-on command when the device is off, at most one command is
    issued, the one the first matching rule decides, and none twice.
    With both a colour temperature and an rgb colour in the bag, whatever
    is issued after the turn-on sequence is the command of the
    colour-temperature rule: the set-white-temp command outside RGBWW
    mode, the set-levels command on the white pair in RGBWW mode. *)
Theorem turn_on_first_match (kw : Kwargs.t) (w : World) :
  let run := FluxLight._async_turn_on kw in
  (∀ kw' : Kwargs.t,
     spec_rule kw' = spec_rule kw →
     Kwargs.brightness kw' = Kwargs.brightness kw →
     Kwargs.is_empty kw' = Kwargs.is_empty kw →
     FluxLight._async_turn_on kw' w = run w) ∧
  (∃ rest : list Command,
     commands run w = (turn_on_sequence (device w) ++ rest)%list ∧
     (length rest ≤ 1)%nat ∧
     (stops_early kw w = false → rest = option_list (issues (spec_verdict kw w)))) ∧
  NoDup (commands run w) ∧
  (∀ (mired : Z) (rgb : RGB),
     Kwargs.color_temp kw = Some mired →
     Kwargs.rgb_color kw = Some rgb →
     let dev := device_at_dispatch (device w) in
     let kelvin := color_temperature_mired_to_kelvin mired in
     let white := default ((Device.getWhiteTemperature dev).2) (Kwargs.brightness kw) in
     let brightness := default (FluxLight.brightness dev) (Kwargs.brightness kw) in
     spec_rule kw = RuleColorTemp mired ∧
     ∃ rest : list Command,
       commands run w = (turn_on_sequence (device w) ++ rest)%list ∧
       (length rest ≤ 1)%nat ∧
       (outcome run w = Next tt → length rest = 1%nat) ∧
       ∀ c, c ∈ rest →
         (FluxLight.color_mode dev ≠ COLOR_MODE_RGBWW ∧
          c = async_set_white_temp kelvin brightness) ∨
         (FluxLight.color_mode dev = COLOR_MODE_RGBWW ∧
          ∃ cold warm : Z,
            color_temp_to_white_levels kelvin white = inr (cold, warm) ∧
            c = async_set_levels (Some 0) (Some 0) (Some 0)
                  (Some warm) (Some cold) None)).
Proof.
  cbn zeta. split; [| split; [| split]].
  - intros kw' Hrule Hb Hempty.
    rewrite !dispatch_run. unfold spec_turn_on. by rewrite Hrule, Hb, Hempty.
  - rewrite turn_on_commands. eexists. split; [done |]. split.
    + destruct (stops_early kw w); [cbn; lia |].
      destruct (issues _); cbn; lia.
    + by intros ->.
  - rewrite turn_on_commands. unfold spec_verdict, turn_on_sequence.
    pose proof (spec_dispatch_not_turn_on (spec_rule kw) (Kwargs.brightness kw)
                  (entity w) (device_at_dispatch (device w)) (drawn w)) as Hne.
    destruct (FluxLight.is_on (device w)), (stops_early kw w),
      (issues _) as [c|]; cbn [app option_list];
      repeat (apply NoDup_cons; split);
      try apply NoDup_nil_2; try apply not_elem_of_nil.
    intros Hin%list_elem_of_singleton. congruence.
  - intros mired rgb Hct Hrgb.
    rewrite turn_on_outcome, turn_on_commands.
    rewrite (not_stops_early kw w) by eauto using is_empty_color_temp.
    unfold spec_verdict, spec_rule. rewrite Hct. cbn [spec_dispatch].
    split; [done |]. eexists. split; [done |].
    case_bool_decide as Hmode.
    + destruct (color_temp_to_white_levels _ _) as [e|[cold warm]] eqn:Hlevels;
        cbn.
      * split; [lia |]. split; [done |]. by intros c Hin%elem_of_nil.
      * split; [lia |]. split; [done |].
        intros c ->%list_elem_of_singleton. right. by eauto.
    + cbn. split; [lia |]. split; [done |].
      intros c ->%list_elem_of_singleton. by left.
Qed.

(** C4, as amended.  When the effect rule is the first to match and the
    effect name is neither in the preset table nor RANDOM nor CUSTOM, the
    call raises the value error naming the effect, and issues nothing but
    the turn-on sequence: no command at all when the device is already
    on, the turn-on command alone when it is off. *)
Theorem turn_on_unknown_effect (kw : Kwargs.t) (w : World) (name : string) :
  Kwargs.color_temp kw = None →
  Kwargs.rgb_color kw = None →
  Kwargs.rgbw_color kw = None →
  Kwargs.rgbww_color kw = None →
  Kwargs.effect kw = Some name →
  EFFECT_MAP !! name = None →
  name ≠ EFFECT_RANDOM →
  name ≠ EFFECT_CUSTOM →
  let run := FluxLight._async_turn_on kw in
  outcome run w = Raise (ValueError ("Unknown effect " ++ name)) ∧
  commands run w = turn_on_sequence (device w) ∧
  (FluxLight.is_on (device w) = true → commands run w = []).
Proof.
  intros Hct Hrgb Hrgbw Hrgbww Heff Hmap Hrandom Hcustom. cbn zeta.
  rewrite turn_on_outcome, turn_on_commands.
  rewrite (not_stops_early kw w) by eauto using is_empty_effect.
  unfold spec_verdict, spec_rule.
  rewrite Hct, Hrgb, Hrgbw, Hrgbww, Heff. cbn [spec_dispatch].
  rewrite !bool_decide_false by done. rewrite Hmap.
  cbn [invalid ends issues option_list]. rewrite app_nil_r.
  split; [done |]. split; [done |].
  intros Hon. unfold turn_on_sequence. by rewrite Hon.
Qed.

(** C5, as amended.  When the effect rule is the first to match and the
    effect is CUSTOM, the call raises nothing.  With an empty configured
    colour list it issues nothing but the turn-on sequence: no command at
    all when the device is already on.  With a non-empty list it issues,
    after the turn-on sequence, exactly one custom-pattern command with
    the stored colours, speed percentage and transition. *)
Theorem turn_on_custom_effect (kw : Kwargs.t) (w : World) :
  Kwargs.color_temp kw = None →
  Kwargs.rgb_color kw = None →
  Kwargs.rgbw_color kw = None →
  Kwargs.rgbww_color kw = None →
  Kwargs.effect kw = Some EFFECT_CUSTOM →
  let run := FluxLight._async_turn_on kw in
  let this := entity w in
  outcome run w = Next tt ∧
  (Entity._custom_effect_colors this = [] →
     commands run w = turn_on_sequence (device w) ∧
     (FluxLight.is_on (device w) = true → commands run w = [])) ∧
  (Entity._custom_effect_colors this ≠ [] →
     commands run w =
       (turn_on_sequence (device w) ++
        [async_set_custom_pattern
           (Entity._custom_effect_colors this)
           (Entity._custom_effect_speed_pct this)
           (Entity._custom_effect_transition this)])%list).
Proof.
  intros Hct Hrgb Hrgbw Hrgbww Heff. cbn zeta.
  rewrite turn_on_outcome, turn_on_commands.
  rewrite (not_stops_early kw w) by eauto using is_empty_effect.
  unfold spec_verdict, spec_rule.
  rewrite Hct, Hrgb, Hrgbw, Hrgbww, Heff. cbn [spec_dispatch].
  rewrite (bool_decide_false (EFFECT_CUSTOM = EFFECT_RANDOM)) by done.
  rewrite (bool_decide_true (EFFECT_CUSTOM = EFFECT_CUSTOM)) by done.
  destruct (Entity._custom_effect_colors (entity w)) as [|c cs] eqn:Hcolors;
    cbn [nothing issue ends issues option_list].
  - rewrite app_nil_r. split; [done |]. split; [| done].
    intros _. split; [done |].
    intros Hon. unfold turn_on_sequence. by rewrite Hon.
  - split; [done |]. split; [done |]. done.
Qed.

(** C9.  When the bag holds no brightness, every branch that passes a
    brightness on passes the brightness the device reports when the
    dispatch reads it: the colour-temperature branch outside RGBWW mode,
    the rgb branch, and each brightness-only branch. *)
Theorem turn_on_keeps_reported_brightness (kw : Kwargs.t) (w : World) :
  Kwargs.brightness kw = None →
  let run := FluxLight._async_turn_on kw in
  let dev := device_at_dispatch (device w) in
  let reported := FluxLight.brightness dev in
  (∀ mired : Z,
     Kwargs.color_temp kw = Some mired →
     FluxLight.color_mode dev ≠ COLOR_MODE_RGBWW →
     commands run w =
       (turn_on_sequence (device w) ++
        [async_set_white_temp (color_temperature_mired_to_kelvin mired) reported])%list) ∧
  (∀ rgb : RGB,
     Kwargs.color_temp kw = None →
     Kwargs.rgb_color kw = Some rgb →
     commands run w =
       (turn_on_sequence (device w) ++
        [async_set_levels_star3 rgb (Some reported)])%list) ∧
  (spec_rule kw = RuleBrightnessOnly →
   stops_early kw w = false →
     commands run w =
       (turn_on_sequence (device w) ++
        match FluxLight.color_mode dev with
        | COLOR_MODE_COLOR_TEMP =>
            [async_set_white_temp (Device.color_temp dev) reported]
        | COLOR_MODE_RGB =>
            [async_set_levels_star3 (FluxLight.rgb_color dev) (Some reported)]
        | COLOR_MODE_RGBW =>
            [async_set_levels_star4
               (rgbw_brightness (FluxLight.rgbw_color dev) reported)]
        | COLOR_MODE_RGBWW =>
            [async_set_levels_star5
               (rgbww_brightness (FluxLight.rgbwc_color dev) reported)]
        | COLOR_MODE_BRIGHTNESS =>
            [async_set_levels None None None (Some reported) None None]
        | COLOR_MODE_ONOFF => []
        end)%list).
Proof.
  intros Hb. cbn zeta. rewrite turn_on_commands. unfold spec_verdict.
  rewrite Hb. split; [| split].
  - intros mired Hct Hmode.
    rewrite (not_stops_early kw w) by eauto using is_empty_color_temp.
    unfold spec_rule. rewrite Hct. cbn [spec_dispatch].
    by rewrite bool_decide_false.
  - intros rgb Hct Hrgb.
    rewrite (not_stops_early kw w) by eauto using is_empty_rgb_color.
    unfold spec_rule. by rewrite Hct, Hrgb.
  - intros -> ->. cbn [spec_dispatch].
    by destruct (FluxLight.color_mode _).
Qed.
End turn_on.

(** ** Construction and state derivation *)

Section entity.
Context `{ColorUtil, FluxUtils, Const, Host}.

Lemma init_supported_color_modes dev colors speed_pct transition :
  Entity._attr_supported_color_modes
    (FluxLight.__init__ dev colors speed_pct transition) =
  set_map (λ mode, default COLOR_MODE_ONOFF (FLUX_COLOR_MODE_TO_HASS !! mode))
    (Device.color_modes dev).
Proof. unfold FluxLight.__init__. cbn zeta. by case_bool_decide. Qed.

Lemma init_effect_list dev colors speed_pct transition :
  Entity._attr_effect_list (FluxLight.__init__ dev colors speed_pct transition) =
  if bool_decide
       (Entity._attr_supported_color_modes
          (FluxLight.__init__ dev colors speed_pct transition)
        ∩ EFFECT_SUPPORT_MODES ≠ ∅)
  then if bool_decide (colors ≠ [])
       then Some (FLUX_EFFECT_LIST ++ [EFFECT_CUSTOM])%list
       else Some FLUX_EFFECT_LIST
  else None.
Proof.
  rewrite init_supported_color_modes.
  unfold FluxLight.__init__. cbn zeta. by case_bool_decide.
Qed.

Lemma EFFECT_CUSTOM_not_in_FLUX_EFFECT_LIST : EFFECT_CUSTOM ∉ FLUX_EFFECT_LIST.
Proof. apply (bool_decide_unpack _). vm_compute. exact I. Qed.

Lemma step_entity w ev : entity (step w ev) = entity w.
Proof. destruct ev; cbn [step]; [apply turn_on_entity | done | done]. Qed.

Lemma life_entity history : ∀ w, entity (life w history) = entity w.
Proof.
  unfold life. induction history as [|ev history IH]; intros w; [done |].
  cbn [foldl]. by rewrite IH, step_entity.
Qed.

(** C6, as amended.  The mired range comes from the kelvin range of the
    device: the minimum mired is the conversion of the maximum kelvin
    plus one, the maximum mired the conversion of the minimum kelvin.
    The offset is on the minimum mired, the coolest bound; the maximum
    mired, the warmest bound, carries none. *)
Theorem init_mired_range (dev : Device.t) (colors : list RGB)
    (speed_pct : Z) (transition : string) :
  let this := FluxLight.__init__ dev colors speed_pct transition in
  Entity._attr_min_mireds this =
    color_temperature_kelvin_to_mired (Device.max_temp dev) + 1 ∧
  Entity._attr_max_mireds this =
    color_temperature_kelvin_to_mired (Device.min_temp dev).
Proof. unfold FluxLight.__init__. cbn zeta. by case_bool_decide. Qed.

(** C10.  At any time in the life of an entity, its attributes are those
    [__init__] stored, and its effect list contains CUSTOM exactly when
    the custom colour list given at construction is not empty and the
    supported colour modes meet RGB, RGBW, RGBWW. *)
Theorem effect_list_custom (dev : Device.t) (colors : list RGB)
    (speed_pct : Z) (transition : string) (history : list Event) :
  let this := entity (life (constructed dev colors speed_pct transition) history) in
  this = FluxLight.__init__ dev colors speed_pct transition ∧
  Entity._custom_effect_colors this = colors ∧
  (advertises this EFFECT_CUSTOM ↔
   colors ≠ [] ∧
   Entity._attr_supported_color_modes this ∩ EFFECT_SUPPORT_MODES ≠ ∅).
Proof.
  cbn zeta. rewrite life_entity. cbn [constructed entity].
  split; [done |]. split.
  { unfold FluxLight.__init__. cbn zeta. by case_bool_decide. }
  unfold advertises. rewrite init_effect_list.
  case_bool_decide as Hmodes; [case_bool_decide as Hcolors |].
  - split; [done |]. intros _. eexists. split; [done |].
    apply elem_of_app. right. by apply list_elem_of_singleton.
  - split; [| by intros [? _]].
    intros (effects & [= <-] & Hin).
    by apply EFFECT_CUSTOM_not_in_FLUX_EFFECT_LIST in Hin.
  - split; [by intros (? & ? & _) | by intros [_ ?]].
Qed.


End entity.

(** ** The effect table *)

(** C7.  The effect table has 20 names; its codes are exactly the numbers
    from 0x25 to 0x38, each a byte; the inverse table maps a code to a name
    exactly when the table maps that name to that code; and for every code
    from 0x25 to 0x38, the name of the code has that code. *)
Theorem EFFECT_MAP_round_trip :
  size EFFECT_MAP = 20%nat ∧
  size EFFECT_ID_NAME = 20%nat ∧
  (∀ code : Z, (∃ name, EFFECT_MAP !! name = Some code) ↔ (0x25 ≤ code ≤ 0x38)%Z) ∧
  (∀ (name : string) (code : Z),
     EFFECT_MAP !! name = Some code → (0 ≤ code < 256)%Z) ∧
  (∀ (name : string) (code : Z),
     EFFECT_ID_NAME !! code = Some name ↔ EFFECT_MAP !! name = Some code) ∧
  (∀ code : Z, (0x25 ≤ code ≤ 0x38)%Z →
     ∃ name, EFFECT_ID_NAME !! code = Some name ∧ EFFECT_MAP !! name = Some code).
Proof.
  split; [by vm_compute |]. split; [by vm_compute |].
  split; [| split; [| split]].
  - intros code. split.
    + intros [name Hname%EFFECT_MAP_spec]. by eapply EFFECT_MAP_items_range.
    + intros [name Hin]%EFFECT_MAP_items_cover. exists name. by apply EFFECT_MAP_spec.
  - intros name code Hname%EFFECT_MAP_spec%EFFECT_MAP_items_range. lia.
  - intros name code. by rewrite EFFECT_ID_NAME_spec, EFFECT_MAP_spec.
  - intros code [name Hin]%EFFECT_MAP_items_cover. exists name.
    by rewrite EFFECT_ID_NAME_spec, EFFECT_MAP_spec.
Qed.


(** ** Further properties of the state derivation *)

Lemma EFFECT_MAP_not_custom_code (name : string) :
  EFFECT_MAP !! name ≠ Some EFFECT_CUSTOM_CODE.
Proof.
  intros Hname%EFFECT_MAP_spec%EFFECT_MAP_items_range.
  unfold EFFECT_CUSTOM_CODE in Hname. lia.
Qed.

Lemma EFFECT_MAP_RANDOM : EFFECT_MAP !! EFFECT_RANDOM = None.
Proof. by vm_compute. Qed.

Lemma EFFECT_MAP_CUSTOM : EFFECT_MAP !! EFFECT_CUSTOM = None.
Proof. by vm_compute. Qed.

(** The effect the entity reports.  It is CUSTOM exactly for the reserved
    code 0x60, otherwise the table name of the reported code; there is no
    effect exactly when the code is neither 0x60 nor from 0x25 to 0x38; and
    RANDOM, which the dispatch accepts, is never reported. *)
Theorem effect_reports (dev : Device.t) :
  (∀ name : string,
     FluxLight.effect dev = Some name ↔
     (Device.preset_pattern_num dev = EFFECT_CUSTOM_CODE ∧ name = EFFECT_CUSTOM) ∨
     EFFECT_MAP !! name = Some (Device.preset_pattern_num dev)) ∧
  (FluxLight.effect dev = None ↔
     Device.preset_pattern_num dev ≠ EFFECT_CUSTOM_CODE ∧
     ¬ (0x25 ≤ Device.preset_pattern_num dev ≤ 0x38)%Z) ∧
  FluxLight.effect dev ≠ Some EFFECT_RANDOM.
Proof.
  assert (Hsome : ∀ name : string,
     FluxLight.effect dev = Some name ↔
     (Device.preset_pattern_num dev = EFFECT_CUSTOM_CODE ∧ name = EFFECT_CUSTOM) ∨
     EFFECT_MAP !! name = Some (Device.preset_pattern_num dev)).
  { intros name. unfold FluxLight.effect. cbn zeta.
    case_bool_decide as Hcode.
    - rewrite Hcode. split.
      + intros [= <-]. by left.
      + intros [[_ ->] | Hmap]; [done |].
        by apply EFFECT_MAP_not_custom_code in Hmap.
    - rewrite EFFECT_ID_NAME_spec, <- EFFECT_MAP_spec. split; [by right |].
      by intros [[? _] | ?]. }
  split; [done |]. split.
  - split.
    + intros Hnone. split.
      * intros Hcode. unfold FluxLight.effect in Hnone. cbn zeta in Hnone.
        by rewrite bool_decide_true in Hnone.
      * intros [name Hin]%EFFECT_MAP_items_cover.
        apply EFFECT_MAP_spec in Hin.
        assert (FluxLight.effect dev = Some name) as Hname by (apply Hsome; by right).
        congruence.
    + intros [Hcode Hrange].
      destruct (FluxLight.effect dev) as [name|] eqn:Heff; [| done].
      destruct (proj1 (Hsome name) eq_refl) as [[? _] | Hmap]; [done |].
      apply EFFECT_MAP_spec, EFFECT_MAP_items_range in Hmap. done.
  - intros [[_ ?] | Hmap]%Hsome; [done |].
    by rewrite EFFECT_MAP_RANDOM in Hmap.
Qed.

(** The native colour modes the mapping table knows. *)
Lemma FLUX_COLOR_MODE_TO_HASS_lookup (native : string) :
  FLUX_COLOR_MODE_TO_HASS !! native =
  if decide (native = FLUX_COLOR_MODE_DIM) then Some COLOR_MODE_BRIGHTNESS
  else if decide (native = FLUX_COLOR_MODE_CCT) then Some COLOR_MODE_COLOR_TEMP
  else if decide (native = FLUX_COLOR_MODE_RGBWW) then Some COLOR_MODE_RGBWW
  else if decide (native = FLUX_COLOR_MODE_RGBW) then Some COLOR_MODE_RGBW
  else if decide (native = FLUX_COLOR_MODE_RGB) then Some COLOR_MODE_RGB
  else None.
Proof.
  unfold FLUX_COLOR_MODE_TO_HASS.
  rewrite !lookup_insert, lookup_empty.
  repeat case_decide; congruence.
Qed.

(** The colour mode the entity reports is ONOFF exactly when the native
    mode is none of the five the table knows, and two devices reporting the
    same mode other than ONOFF are in the same native mode. *)
Theorem color_mode_reports (dev : Device.t) :
  (FluxLight.color_mode dev = COLOR_MODE_ONOFF ↔
   Device.color_mode dev ∉
     [FLUX_COLOR_MODE_RGB; FLUX_COLOR_MODE_RGBW; FLUX_COLOR_MODE_RGBWW;
      FLUX_COLOR_MODE_CCT; FLUX_COLOR_MODE_DIM]) ∧
  (∀ dev' : Device.t,
     FluxLight.color_mode dev' = FluxLight.color_mode dev →
     FluxLight.color_mode dev ≠ COLOR_MODE_ONOFF →
     Device.color_mode dev' = Device.color_mode dev).
Proof.
  unfold FluxLight.color_mode. split.
  - rewrite FLUX_COLOR_MODE_TO_HASS_lookup, !not_elem_of_cons.
    repeat case_decide; cbn [default id]; split; try done;
      try (intros (?&?&?&?&?&?); done).
    intros _. repeat split; try done. apply not_elem_of_nil.
  - intros dev'. rewrite !FLUX_COLOR_MODE_TO_HASS_lookup.
    repeat case_decide; cbn [default id]; congruence.
Qed.

(** ** Further properties of the constructor *)

Lemma FLUX_EFFECT_LIST_elem_of (name : string) :
  name ∈ FLUX_EFFECT_LIST ↔ is_Some (EFFECT_MAP !! name) ∨ name = EFFECT_RANDOM.
Proof.
  unfold FLUX_EFFECT_LIST, sorted.
  rewrite elem_of_app, merge_sort_Permutation, list_elem_of_singleton.
  rewrite list_elem_of_fmap.
  split; (intros [Hname | ->]; [left | by right]).
  - destruct Hname as ([n c] & -> & Hin). exists c. by apply EFFECT_MAP_spec.
  - destruct Hname as [c Hc%EFFECT_MAP_spec]. by exists (name, c).
Qed.

Lemma FLUX_EFFECT_LIST_NoDup : NoDup (FLUX_EFFECT_LIST ++ [EFFECT_CUSTOM]).
Proof. apply (bool_decide_unpack _). vm_compute. exact I. Qed.

Section entity_more.
Context `{ColorUtil, FluxUtils, Const, Host}.

(** The supported colour modes are the images of the device's native
    modes, so the mode the entity reports is one of them whenever the
    device's current native mode is one of the native modes it listed at
    construction. *)
Theorem color_mode_supported (dev0 dev : Device.t) (colors : list RGB)
    (speed_pct : Z) (transition : string) :
  Device.color_mode dev ∈ Device.color_modes dev0 →
  FluxLight.color_mode dev ∈
    Entity._attr_supported_color_modes
      (FluxLight.__init__ dev0 colors speed_pct transition).
Proof.
  intros Hin. rewrite init_supported_color_modes.
  apply elem_of_map. by exists (Device.color_mode dev).
Qed.

(** The feature bits: transitions are always supported; the effect bit is
    set exactly when there is an effect list, which is exactly when the
    supported colour modes meet RGB, RGBW, RGBWW. *)
Theorem init_supported_features (dev : Device.t) (colors : list RGB)
    (speed_pct : Z) (transition : string) :
  let this := FluxLight.__init__ dev colors speed_pct transition in
  Z.land (Entity._attr_supported_features this) SUPPORT_TRANSITION = SUPPORT_TRANSITION ∧
  (Z.land (Entity._attr_supported_features this) SUPPORT_EFFECT = SUPPORT_EFFECT ↔
   is_Some (Entity._attr_effect_list this)) ∧
  (is_Some (Entity._attr_effect_list this) ↔
   Entity._attr_supported_color_modes this ∩ EFFECT_SUPPORT_MODES ≠ ∅).
Proof.
  cbn zeta. rewrite init_effect_list.
  rewrite init_supported_color_modes.
  unfold FluxLight.__init__. cbn zeta.
  case_bool_decide as Hmodes; cbn.
  - split; [done |]. split; [by case_bool_decide |].
    split; [done |]. by case_bool_decide.
  - split; [done |]. split; [| split; [by intros [??] | done]].
    split; [done | by intros [??]].
Qed.

(** The effect list, when there is one: it holds exactly the names of the
    effect table, RANDOM, and CUSTOM if custom colours were given; no name
    twice; so 21 or 22 names. *)
Theorem init_effect_list_contents (dev : Device.t) (colors : list RGB)
    (speed_pct : Z) (transition : string) (effects : list string) :
  Entity._attr_effect_list (FluxLight.__init__ dev colors speed_pct transition) =
    Some effects →
  (∀ name : string,
     name ∈ effects ↔
     is_Some (EFFECT_MAP !! name) ∨ name = EFFECT_RANDOM ∨
     (name = EFFECT_CUSTOM ∧ colors ≠ [])) ∧
  NoDup effects ∧
  length effects = (if bool_decide (colors = []) then 21 else 22)%nat.
Proof.
  rewrite init_effect_list.
  case_bool_decide as Hmodes; [| done].
  destruct colors as [|c cs].
  - rewrite bool_decide_false by (intros Hn; by apply Hn).
    rewrite bool_decide_true by done.
    intros Heq%(inj Some); subst effects. split; [| split].
    + intros name. rewrite FLUX_EFFECT_LIST_elem_of. split.
      * intros [? | ?]; [by left | right; by left].
      * intros [? | [? | [_ ?]]]; [by left | by right | done].
    + pose proof FLUX_EFFECT_LIST_NoDup as Hnd.
      by apply NoDup_app in Hnd as [? _].
    + by vm_compute.
  - rewrite bool_decide_true by done.
    rewrite bool_decide_false by done.
    intros Heq%(inj Some); subst effects. split; [| split].
    + intros name. rewrite elem_of_app, FLUX_EFFECT_LIST_elem_of,
        list_elem_of_singleton. split.
      * intros [[? | ?] | ?]; [by left | right; by left | right; by right].
      * intros [? | [? | [? _]]]; [left; by left | left; by right | by right].
    + apply FLUX_EFFECT_LIST_NoDup.
    + by vm_compute.
Qed.

(** The reported colour temperature against the advertised range.  At the
    device's maximum kelvin the entity reports a mired value one below the
    minimum it advertises; at the minimum kelvin it reports the maximum it
    advertises. *)
Theorem color_temp_at_range_ends (dev0 dev : Device.t) (colors : list RGB)
    (speed_pct : Z) (transition : string) :
  let this := FluxLight.__init__ dev0 colors speed_pct transition in
  (Device.color_temp dev = Device.max_temp dev0 →
     FluxLight.color_temp dev = Entity._attr_min_mireds this - 1 ∧
     FluxLight.color_temp dev < Entity._attr_min_mireds this) ∧
  (Device.color_temp dev = Device.min_temp dev0 →
     FluxLight.color_temp dev = Entity._attr_max_mireds this).
Proof.
  cbn zeta. unfold FluxLight.color_temp, FluxLight.__init__. cbn zeta.
  case_bool_decide; cbn; split; intros ->; lia.
Qed.
End entity_more.

(** ** Further properties of the turn-on dispatch *)

Section turn_on_more.
Context `{ColorUtil, FluxUtils, Const, Host}.

Lemma turn_on_drawn kw w :
  drawn (FluxLight._async_turn_on kw w).2 =
  ((if stops_early kw w then 0 else draws (spec_verdict kw w)) + drawn w)%nat.
Proof.
  unfold stops_early, spec_verdict.
  rewrite <- device_after_turn_on_sequence.
  rewrite dispatch_run. unfold spec_turn_on.
  by destruct (negb _ && _).
Qed.

Lemma turn_on_sent kw w :
  sent (FluxLight._async_turn_on kw w).2 =
  (sent w ++ commands (FluxLight._async_turn_on kw) w)%list.
Proof.
  assert (∃ cs n, (FluxLight._async_turn_on kw w).2 = after cs n w) as (cs & n & Hrun).
  { rewrite dispatch_run. unfold spec_turn_on.
    destruct (negb _ && _); cbn [snd]; [by eauto |].
    rewrite after_after. by eauto. }
  unfold commands. rewrite Hrun, sent_after. by rewrite drop_app_length.
Qed.

Lemma spec_rule_effect kw name :
  spec_rule kw = RuleEffect name ↔
  Kwargs.color_temp kw = None ∧ Kwargs.rgb_color kw = None ∧
  Kwargs.rgbw_color kw = None ∧ Kwargs.rgbww_color kw = None ∧
  Kwargs.effect kw = Some name.
Proof.
  unfold spec_rule.
  destruct (Kwargs.color_temp kw), (Kwargs.rgb_color kw), (Kwargs.rgbw_color kw),
    (Kwargs.rgbww_color kw), (Kwargs.effect kw); split;
    try done; try (by intros (?&?&?&?&?)).
  - by intros [= ->].
  - by intros (_&_&_&_&[= ->]).
Qed.

Lemma stops_early_effect kw w name :
  spec_rule kw = RuleEffect name → stops_early kw w = false.
Proof.
  intros (_&_&_&_&Heff)%spec_rule_effect.
  eauto using not_stops_early, is_empty_effect.
Qed.

(** A star helper builds a set-levels command. *)
Lemma async_set_levels_star3_levels t x :
  ∃ r g b, async_set_levels_star3 t x = async_set_levels r g b None None x.
Proof. destruct t as [[r g] b]. cbn. eauto. Qed.

Lemma async_set_levels_star4_levels t :
  ∃ r g b w, async_set_levels_star4 t = async_set_levels r g b w None None.
Proof. destruct t as [[[r g] b] w]. cbn. eauto. Qed.

Lemma async_set_levels_star5_levels t :
  ∃ r g b w w2, async_set_levels_star5 t = async_set_levels r g b w w2 None.
Proof. destruct t as [[[[r g] b] w] w2]. cbn. eauto 10. Qed.

(** What a verdict that issues a preset or a custom-pattern command tells
    about the rule. *)
Lemma spec_dispatch_preset rule given this dev n pattern speed :
  issues (spec_dispatch rule given this dev n) =
    Some (async_set_preset_pattern pattern speed) →
  ∃ name, rule = RuleEffect name ∧ EFFECT_MAP !! name = Some pattern ∧
          speed = DEFAULT_EFFECT_SPEED.
Proof.
  destruct rule as [mired|rgb|rgbw|rgbcw|name|]; cbn [spec_dispatch].
  - case_bool_decide; [| done].
    by destruct (color_temp_to_white_levels _ _).
  - cbn. by destruct (async_set_levels_star3_levels rgb
                       (Some (default (Device.brightness dev) given)))
      as (?&?&?&->).
  - cbn. by destruct (async_set_levels_star4_levels
                       match given with Some x => rgbw_brightness rgbw x | None => rgbw end)
      as (?&?&?&?&->).
  - cbn. by destruct (async_set_levels_star5_levels
                       (rgbcw_to_rgbwc
                          match given with
                          | Some x => rgbcw_brightness rgbcw x | None => rgbcw end))
      as (?&?&?&?&?&->).
  - repeat case_bool_decide; [done | by destruct (Entity._custom_effect_colors this) |].
    destruct (EFFECT_MAP !! name) as [p|] eqn:Hp; [| done].
    cbn. intros [= <- <-]. eauto.
  - destruct (FluxLight.color_mode dev); cbn; try done.
    + by destruct (async_set_levels_star3_levels (FluxLight.rgb_color dev)
                     (Some (default (Device.brightness dev) given))) as (?&?&?&->).
    + by destruct (async_set_levels_star4_levels
                     (rgbw_brightness (FluxLight.rgbw_color dev)
                        (default (Device.brightness dev) given))) as (?&?&?&?&->).
    + by destruct (async_set_levels_star5_levels
                     (rgbww_brightness (FluxLight.rgbwc_color dev)
                        (default (Device.brightness dev) given))) as (?&?&?&?&?&->).
Qed.

Lemma spec_dispatch_custom rule given this dev n colors speed_pct transition :
  issues (spec_dispatch rule given this dev n) =
    Some (async_set_custom_pattern colors speed_pct transition) →
  rule = RuleEffect EFFECT_CUSTOM ∧ colors ≠ [] ∧
  colors = Entity._custom_effect_colors this ∧
  speed_pct = Entity._custom_effect_speed_pct this ∧
  transition = Entity._custom_effect_transition this.
Proof.
  destruct rule as [mired|rgb|rgbw|rgbcw|name|]; cbn [spec_dispatch].
  - case_bool_decide; [| done].
    by destruct (color_temp_to_white_levels _ _).
  - cbn. by destruct (async_set_levels_star3_levels rgb
                       (Some (default (Device.brightness dev) given)))
      as (?&?&?&->).
  - cbn. by destruct (async_set_levels_star4_levels
                       match given with Some x => rgbw_brightness rgbw x | None => rgbw end)
      as (?&?&?&?&->).
  - cbn. by destruct (async_set_levels_star5_levels
                       (rgbcw_to_rgbwc
                          match given with
                          | Some x => rgbcw_brightness rgbcw x | None => rgbcw end))
      as (?&?&?&?&?&->).
  - case_bool_decide as Hrandom; [done |].
    case_bool_decide as Hcustom; [| by destruct (EFFECT_MAP !! name)].
    destruct (Entity._custom_effect_colors this) as [|c cs]; [done |].
    cbn. intros [= <- <- <-]. by subst name.
  - destruct (FluxLight.color_mode dev); cbn; try done.
    + by destruct (async_set_levels_star3_levels (FluxLight.rgb_color dev)
                     (Some (default (Device.brightness dev) given))) as (?&?&?&->).
    + by destruct (async_set_levels_star4_levels
                     (rgbw_brightness (FluxLight.rgbw_color dev)
                        (default (Device.brightness dev) given))) as (?&?&?&?&->).
    + by destruct (async_set_levels_star5_levels
                     (rgbww_brightness (FluxLight.rgbwc_color dev)
                        (default (Device.brightness dev) given))) as (?&?&?&?&?&->).
Qed.

(** A command issued by a call is the turn-on command of the turn-on
    sequence or the command of the verdict. *)
Lemma elem_of_turn_on_commands kw w c :
  c ∈ commands (FluxLight._async_turn_on kw) w →
  c = async_turn_on ∨
  (stops_early kw w = false ∧ issues (spec_verdict kw w) = Some c).
Proof.
  rewrite turn_on_commands, elem_of_app. intros [Hin | Hin].
  - left. unfold turn_on_sequence in Hin.
    destruct (FluxLight.is_on (device w)).
    + by apply elem_of_nil in Hin.
    + by apply list_elem_of_singleton in Hin.
  - right. destruct (stops_early kw w); [by apply elem_of_nil in Hin |].
    split; [done |]. destruct (issues _) as [c'|]; cbn in Hin.
    + apply list_elem_of_singleton in Hin. by subst.
    + by apply elem_of_nil in Hin.
Qed.

(** Every preset command a call issues carries a code of the effect table,
    hence from 0x25 to 0x38, the code of the effect named in the bag, and
    the default speed. *)
Theorem issued_preset_in_table (kw : Kwargs.t) (w : World) (pattern speed : Z) :
  async_set_preset_pattern pattern speed ∈ commands (FluxLight._async_turn_on kw) w →
  (0x25 ≤ pattern ≤ 0x38)%Z ∧
  speed = DEFAULT_EFFECT_SPEED ∧
  ∃ name, Kwargs.effect kw = Some name ∧ EFFECT_MAP !! name = Some pattern.
Proof.
  intros [? | [_ Hv]]%elem_of_turn_on_commands; [done |].
  apply spec_dispatch_preset in Hv as (name & Hrule & Hmap & ->).
  apply spec_rule_effect in Hrule as (_&_&_&_&Heff).
  split; [| by eauto].
  by eapply EFFECT_MAP_items_range, EFFECT_MAP_spec.
Qed.

(** Every custom-pattern command a call issues carries the colours, speed
    and transition stored at construction, and never an empty colour
    list. *)
Theorem issued_custom_pattern_stored (kw : Kwargs.t) (w : World)
    (colors : list RGB) (speed_pct : Z) (transition : string) :
  async_set_custom_pattern colors speed_pct transition
    ∈ commands (FluxLight._async_turn_on kw) w →
  colors ≠ [] ∧
  colors = Entity._custom_effect_colors (entity w) ∧
  speed_pct = Entity._custom_effect_speed_pct (entity w) ∧
  transition = Entity._custom_effect_transition (entity w) ∧
  Kwargs.effect kw = Some EFFECT_CUSTOM.
Proof.
  intros [? | [_ Hv]]%elem_of_turn_on_commands; [done |].
  apply spec_dispatch_custom in Hv as (Hrule & ? & ? & ? & ?).
  apply spec_rule_effect in Hrule as (_&_&_&_&Heff). done.
Qed.

(** A preset effect goes out and comes back: asked for a name of the effect
    table, the call issues the preset command with the code of that name,
    and a device that then reports this code has the entity report the
    name asked for. *)
Theorem preset_effect_round_trip (kw : Kwargs.t) (w : World)
    (name : string) (pattern : Z) :
  Kwargs.color_temp kw = None →
  Kwargs.rgb_color kw = None →
  Kwargs.rgbw_color kw = None →
  Kwargs.rgbww_color kw = None →
  Kwargs.effect kw = Some name →
  EFFECT_MAP !! name = Some pattern →
  let run := FluxLight._async_turn_on kw in
  outcome run w = Next tt ∧
  commands run w =
    (turn_on_sequence (device w) ++
     [async_set_preset_pattern pattern DEFAULT_EFFECT_SPEED])%list ∧
  ∀ dev : Device.t,
    Device.preset_pattern_num dev = pattern → FluxLight.effect dev = Some name.
Proof.
  intros Hct Hrgb Hrgbw Hrgbww Heff Hmap. cbn zeta.
  assert (spec_rule kw = RuleEffect name) as Hrule by (by apply spec_rule_effect).
  rewrite turn_on_outcome, turn_on_commands, (stops_early_effect kw w name Hrule).
  unfold spec_verdict. rewrite Hrule. cbn [spec_dispatch].
  rewrite !bool_decide_false.
  - rewrite Hmap. split; [done |]. split; [done |].
    intros dev <-. apply effect_reports. by right.
  - intros ->. by rewrite EFFECT_MAP_CUSTOM in Hmap.
  - intros ->. by rewrite EFFECT_MAP_RANDOM in Hmap.
Qed.

(** Every effect the entity advertises is accepted: asked for a name of its
    effect list, the call does not raise and issues exactly one command
    after the turn-on sequence. *)
Theorem advertised_effect_accepted (kw : Kwargs.t) (w : World) (name : string) :
  advertises (entity w) name →
  (∃ dev colors speed_pct transition,
     entity w = FluxLight.__init__ dev colors speed_pct transition) →
  Kwargs.color_temp kw = None →
  Kwargs.rgb_color kw = None →
  Kwargs.rgbw_color kw = None →
  Kwargs.rgbww_color kw = None →
  Kwargs.effect kw = Some name →
  let run := FluxLight._async_turn_on kw in
  outcome run w = Next tt ∧
  ∃ c, commands run w = (turn_on_sequence (device w) ++ [c])%list.
Proof.
  intros (effects & Hlist & Hin) (dev & colors & speed_pct & transition & Hinit).
  intros Hct Hrgb Hrgbw Hrgbww Heff. cbn zeta.
  assert (spec_rule kw = RuleEffect name) as Hrule by (by apply spec_rule_effect).
  rewrite turn_on_outcome, turn_on_commands, (stops_early_effect kw w name Hrule).
  unfold spec_verdict. rewrite Hrule. cbn [spec_dispatch].
  rewrite Hinit in Hlist.
  apply (init_effect_list_contents _ _ _ _ _ Hlist) in Hin.
  case_bool_decide as Hrandom; [cbn; by eauto |].
  case_bool_decide as Hcustom.
  - destruct Hin as [[? Hmap] | [? | [_ Hcolors]]]; [| done |].
    + subst name. by rewrite EFFECT_MAP_CUSTOM in Hmap.
    + assert (Entity._custom_effect_colors (entity w) = colors) as ->.
      { rewrite Hinit. unfold FluxLight.__init__. cbn zeta. by case_bool_decide. }
      destruct colors; [done |]. cbn. by eauto.
  - destruct Hin as [[p Hmap] | [? | [? _]]]; [| done | done].
    rewrite Hmap. cbn. by eauto.
Qed.

(** The RANDOM effect: one set-levels command with red, green and blue each
    from 0 to 255 and nothing else set, three numbers drawn, no error. *)
Theorem random_effect_levels (kw : Kwargs.t) (w : World) :
  Kwargs.color_temp kw = None →
  Kwargs.rgb_color kw = None →
  Kwargs.rgbw_color kw = None →
  Kwargs.rgbww_color kw = None →
  Kwargs.effect kw = Some EFFECT_RANDOM →
  let run := FluxLight._async_turn_on kw in
  outcome run w = Next tt ∧
  drawn (run w).2 = (3 + drawn w)%nat ∧
  ∃ r g b : Z,
    (0 ≤ r ≤ 255)%Z ∧ (0 ≤ g ≤ 255)%Z ∧ (0 ≤ b ≤ 255)%Z ∧
    commands run w =
      (turn_on_sequence (device w) ++
       [async_set_levels (Some r) (Some g) (Some b) None None None])%list.
Proof.
  intros Hct Hrgb Hrgbw Hrgbww Heff. cbn zeta.
  assert (spec_rule kw = RuleEffect EFFECT_RANDOM) as Hrule
    by (by apply spec_rule_effect).
  rewrite turn_on_outcome, turn_on_commands, turn_on_drawn,
    (stops_early_effect kw w _ Hrule).
  unfold spec_verdict. rewrite Hrule. cbn [spec_dispatch].
  rewrite bool_decide_true by done. cbn [ends issues draws option_list].
  split; [done |]. split; [done |].
  eexists _, _, _. split; [| split; [| split; [| done]]].
  all: pose proof (Z.mod_pos_bound (random_source (0 + drawn w)) 256 ltac:(lia));
    pose proof (Z.mod_pos_bound (random_source (1 + drawn w)) 256 ltac:(lia));
    pose proof (Z.mod_pos_bound (random_source (2 + drawn w)) 256 ltac:(lia));
    change (255 - 0 + 1)%Z with 256%Z; lia.
Qed.

(** Only the RANDOM effect consults the random source: in every other call
    no number is drawn. *)
Theorem draws_only_for_random (kw : Kwargs.t) (w : World) :
  spec_rule kw ≠ RuleEffect EFFECT_RANDOM →
  drawn (FluxLight._async_turn_on kw w).2 = drawn w.
Proof.
  intros Hrule. rewrite turn_on_drawn.
  destruct (stops_early kw w); [done |].
  unfold spec_verdict.
  destruct (spec_rule kw) as [mired|rgb|rgbw|rgbcw|name|]; cbn [spec_dispatch].
  - case_bool_decide; [| done].
    by destruct (color_temp_to_white_levels _ _).
  - done.
  - done.
  - done.
  - case_bool_decide as Hrandom; [by subst |].
    case_bool_decide; [by destruct (Entity._custom_effect_colors _) |].
    by destruct (EFFECT_MAP !! name).
  - by destruct (FluxLight.color_mode _).
Qed.


(** How many commands follow the turn-on sequence.  A call that raises
    issues none.  A call that returns issues exactly one, which is not the
    turn-on command, unless it stopped after the turn-on sequence or asked
    for the CUSTOM effect with no colours stored. *)
Theorem turn_on_command_count (kw : Kwargs.t) (w : World) :
  let run := FluxLight._async_turn_on kw in
  (∀ e, outcome run w = Raise e → commands run w = turn_on_sequence (device w)) ∧
  (outcome run w = Next tt →
   stops_early kw w = false →
   ¬ (spec_rule kw = RuleEffect EFFECT_CUSTOM ∧
      Entity._custom_effect_colors (entity w) = []) →
   ∃ c, c ≠ async_turn_on ∧
        commands run w = (turn_on_sequence (device w) ++ [c])%list).
Proof.
  cbn zeta. rewrite turn_on_outcome, turn_on_commands.
  destruct (stops_early kw w); [split; [done | done] |].
  unfold spec_verdict.
  pose proof (spec_dispatch_not_turn_on (spec_rule kw) (Kwargs.brightness kw)
                (entity w) (device_at_dispatch (device w)) (drawn w)) as Hne.
  assert (∀ v : Verdict,
            issues v ≠ Some async_turn_on →
            is_Some (issues v) →
            ∃ c, c ≠ async_turn_on ∧
                 (turn_on_sequence (device w) ++ option_list (issues v))%list =
                 (turn_on_sequence (device w) ++ [c])%list) as Hone.
  { intros v Hv [c Hc]. exists c. rewrite Hc in *. split; [congruence | done]. }
  destruct (spec_rule kw) as [mired|rgb|rgbw|rgbcw|name|];
    cbn [spec_dispatch] in *.
  - case_bool_decide as Hmode.
    + destruct (color_temp_to_white_levels _ _) as [e'|levels].
      * split; [| done]. intros e _. cbn. by rewrite app_nil_r.
      * split; [done |]. intros _ _ _. by apply Hone.
    + split; [done |]. intros _ _ _. by apply Hone.
  - split; [done |]. intros _ _ _. by apply Hone.
  - split; [done |]. intros _ _ _. by apply Hone.
  - split; [done |]. intros _ _ _. by apply Hone.
  - case_bool_decide as Hrandom; [| case_bool_decide as Hcustom].
    + split; [done |]. intros _ _ _. by apply Hone.
    + destruct (Entity._custom_effect_colors (entity w)) as [|c cs].
      * split; [done |]. intros _ _ Hno. destruct Hno. by subst name.
      * split; [done |]. intros _ _ _. by apply Hone.
    + destruct (EFFECT_MAP !! name).
      * split; [done |]. intros _ _ _. by apply Hone.
      * split; [| done]. intros e _. cbn. by rewrite app_nil_r.
  - destruct (FluxLight.color_mode _);
      try (split; [done |]; intros _ _ _; by apply Hone).
    split; [| done]. intros e _. cbn. by rewrite app_nil_r.
Qed.

(** The CUSTOM effect against the custom-effect service.  With colours
    stored, on a device that is on, asking for the CUSTOM effect does what
    the service does when given the stored colours, speed and transition.
    On a device that is off the call first turns the device on; the service
    itself never does, and never raises. *)
Theorem custom_effect_same_as_service (kw : Kwargs.t) (w : World) :
  Kwargs.color_temp kw = None →
  Kwargs.rgb_color kw = None →
  Kwargs.rgbw_color kw = None →
  Kwargs.rgbww_color kw = None →
  Kwargs.effect kw = Some EFFECT_CUSTOM →
  Entity._custom_effect_colors (entity w) ≠ [] →
  let service :=
    FluxLight.async_set_custom_effect
      (Entity._custom_effect_colors (entity w))
      (Entity._custom_effect_speed_pct (entity w))
      (Entity._custom_effect_transition (entity w)) in
  (FluxLight.is_on (device w) = true → FluxLight._async_turn_on kw w = service w) ∧
  (FluxLight.is_on (device w) = false →
     commands (FluxLight._async_turn_on kw) w = async_turn_on :: commands service w) ∧
  outcome service w = Next tt ∧
  commands service w =
    [async_set_custom_pattern
       (Entity._custom_effect_colors (entity w))
       (Entity._custom_effect_speed_pct (entity w))
       (Entity._custom_effect_transition (entity w))].
Proof.
  intros Hct Hrgb Hrgbw Hrgbww Heff Hcolors. cbn zeta.
  assert (spec_rule kw = RuleEffect EFFECT_CUSTOM) as Hrule
    by (by apply spec_rule_effect).
  assert (∀ cs sp tr,
            commands (FluxLight.async_set_custom_effect cs sp tr) w =
            [async_set_custom_pattern cs sp tr]) as Hservice.
  { intros cs sp tr. unfold commands, FluxLight.async_set_custom_effect, def, await.
    cbn. by rewrite drop_app_length. }
  split; [| split; [| split; [done | by apply Hservice]]].
  - intros Hon. rewrite dispatch_run. unfold spec_turn_on, turn_on_sequence.
    rewrite Hon, Hrule. cbn [negb andb spec_dispatch].
    rewrite (bool_decide_false (EFFECT_CUSTOM = EFFECT_RANDOM)) by done.
    rewrite (bool_decide_true (EFFECT_CUSTOM = EFFECT_CUSTOM)) by done.
    cbn [after entity device sent drawn foldl Nat.add].
    destruct (Entity._custom_effect_colors (entity w)) as [|c cs] eqn:Hcs; [done |].
    unfold FluxLight.async_set_custom_effect, def, await, after, issue.
    cbn [ends issues draws option_list foldl entity device sent drawn Nat.add].
    by rewrite app_nil_r.
  - intros Hoff. rewrite Hservice, turn_on_commands,
      (stops_early_effect kw w _ Hrule).
    unfold turn_on_sequence, spec_verdict. rewrite Hoff, Hrule.
    cbn [spec_dispatch].
    rewrite (bool_decide_false (EFFECT_CUSTOM = EFFECT_RANDOM)) by done.
    rewrite (bool_decide_true (EFFECT_CUSTOM = EFFECT_CUSTOM)) by done.
    by destruct (Entity._custom_effect_colors (entity w)).
Qed.

Lemma is_empty_rgbw_color kw x :
  Kwargs.rgbw_color kw = Some x → Kwargs.is_empty kw = false.
Proof.
  intros Hx. unfold Kwargs.is_empty. rewrite Hx.
  rewrite (bool_decide_false (Some x = None)) by done.
  by rewrite andb_false_r.
Qed.

Lemma is_empty_rgbww_color kw x :
  Kwargs.rgbww_color kw = Some x → Kwargs.is_empty kw = false.
Proof.
  intros Hx. unfold Kwargs.is_empty. rewrite Hx.
  rewrite (bool_decide_false (Some x = None)) by done.
  by rewrite andb_false_r.
Qed.

(** A colour intent that brings what it needs is decided by the bag alone.
    With no colour temperature, and either an rgb colour together with a
    brightness, or no rgb colour and an rgbw or rgbww colour, the one
    command after the turn-on sequence is the same whatever the device
    reports and whatever the entity stores, and the call never raises. *)
Theorem color_intent_from_bag (kw : Kwargs.t) :
  Kwargs.color_temp kw = None →
  (is_Some (Kwargs.rgb_color kw) ∧ is_Some (Kwargs.brightness kw)) ∨
  (Kwargs.rgb_color kw = None ∧
   (is_Some (Kwargs.rgbw_color kw) ∨ is_Some (Kwargs.rgbww_color kw))) →
  ∃ c : Command, ∀ w : World,
    outcome (FluxLight._async_turn_on kw) w = Next tt ∧
    commands (FluxLight._async_turn_on kw) w =
      (turn_on_sequence (device w) ++ [c])%list.
Proof.
  intros Hct [[[rgb Hrgb] [b Hb]] | [Hrgb Hwhite]].
  - eexists. intros w. rewrite turn_on_outcome, turn_on_commands.
    rewrite (not_stops_early kw w) by eauto using is_empty_rgb_color.
    unfold spec_verdict, spec_rule. rewrite Hct, Hrgb, Hb.
    cbn [spec_dispatch default id issue ends issues option_list]. done.
  - destruct (Kwargs.rgbw_color kw) as [rgbw|] eqn:Hrgbw.
    + eexists. intros w. rewrite turn_on_outcome, turn_on_commands.
      rewrite (not_stops_early kw w) by eauto using is_empty_rgbw_color.
      unfold spec_verdict, spec_rule. rewrite Hct, Hrgb, Hrgbw.
      cbn [spec_dispatch issue ends issues option_list]. done.
    + destruct Hwhite as [[? ?] | [rgbww Hrgbww]]; [done |].
      eexists. intros w. rewrite turn_on_outcome, turn_on_commands.
      rewrite (not_stops_early kw w) by eauto using is_empty_rgbww_color.
      unfold spec_verdict, spec_rule. rewrite Hct, Hrgb, Hrgbw, Hrgbww.
      cbn [spec_dispatch issue ends issues option_list]. done.
Qed.

(** Over the life of an entity the log of commands only grows, and by no
    more than the budgets of its events: at most two commands for a turn-on
    call, at most one for a custom-effect call, none for a refresh.  A
    history of refreshes alone leaves the log as it is. *)
Theorem life_commands_grow (history : list Event) (w : World) :
  (∃ cs : list Command,
     sent (life w history) = (sent w ++ cs)%list ∧
     (length cs ≤ sum_list (command_budget <$> history))%nat) ∧
  (sum_list (command_budget <$> history) = 0%nat →
   sent (life w history) = sent w).
Proof.
  assert (∃ cs : list Command,
     sent (life w history) = (sent w ++ cs)%list ∧
     (length cs ≤ sum_list (command_budget <$> history))%nat) as Hgrow.
  { unfold life. revert w. induction history as [|ev history IH]; intros w.
    - exists []. by rewrite app_nil_r.
    - cbn [foldl]. destruct (IH (step w ev)) as (cs & -> & Hlen).
      assert (∃ cs0, sent (step w ev) = (sent w ++ cs0)%list ∧
                     (length cs0 ≤ command_budget ev)%nat) as (cs0 & -> & Hlen0).
      { destruct ev as [kw|colors speed_pct transition|dev];
          cbn [step command_budget].
        - eexists. split; [apply turn_on_sent |].
          rewrite turn_on_commands, length_app. unfold turn_on_sequence.
          destruct (FluxLight.is_on (device w)), (stops_early kw w);
            try destruct (issues _); cbn; lia.
        - eexists [_]. split; [done | cbn; lia].
        - exists []. split; [by rewrite app_nil_r | cbn; lia]. }
      exists (cs0 ++ cs)%list. split; [by rewrite (assoc_L (++)) |].
      rewrite length_app, fmap_cons.
      change (sum_list (command_budget ev :: (command_budget <$> history)))
        with (command_budget ev + sum_list (command_budget <$> history))%nat.
      lia. }
  split; [done |].
  intros Hzero. destruct Hgrow as (cs & -> & Hlen).
  destruct cs; [by rewrite app_nil_r | cbn in Hlen; lia].
Qed.
End turn_on_more.
(** ** The entity on concrete inputs *)

Section examples.
#[local] Existing Instance Reference.color_util.
#[local] Existing Instance Reference.flux_utils.
#[local] Existing Instance Reference.const.
#[local] Existing Instance Reference.host.


(** A bulb that is off, turned on with an empty bag; a bulb in RGB mode
    that is on, given brightness 128 alone. *)
Lemma turn_on_when_off_and_when_on_witness :
  commands (Reference.turn_on Kwargs.empty) (Reference.world "RGB" false []) =
    [async_turn_on] ∧
  commands (Reference.turn_on (Kwargs.only_brightness 128))
    (Reference.world "RGB" true []) =
    [async_set_levels (Some 255) (Some 127) (Some 63) None None (Some 128)].
Proof.
  split.
  - pose proof (turn_on_when_off_and_when_on Kwargs.empty
                  (Reference.world "RGB" false [])) as Hrun.
    cbn zeta in Hrun. destruct Hrun as [Hoff _].
    exact (proj2 (proj2 (Hoff eq_refl) eq_refl)).
  - pose proof (turn_on_when_off_and_when_on (Kwargs.only_brightness 128)
                  (Reference.world "RGB" true [])) as Hrun.
    cbn zeta in Hrun. destruct Hrun as [_ Hon].
    exact (proj2 (proj2 (Hon eq_refl) 128 eq_refl)).
Defined.

(** C3, the claim as stated fails: a bulb that is off, given brightness
    128, receives two commands for the one intent. *)
Lemma turn_on_two_commands :
  commands (Reference.turn_on (Kwargs.only_brightness 128))
    (Reference.world "RGB" false []) =
    [async_turn_on;
     async_set_levels (Some 255) (Some 127) (Some 63) None None (Some 128)] ∧
  ¬ (length (commands (Reference.turn_on (Kwargs.only_brightness 128))
               (Reference.world "RGB" false [])) ≤ 1)%nat.
Proof. split; [by vm_compute | vm_compute; lia]. Qed.

(** A bag with both a colour temperature and an rgb colour behaves as the
    bag with the colour temperature alone. *)
Lemma turn_on_first_match_witness :
  Reference.turn_on (Reference.color_temp_and_rgb 250 (10, 20, 30))
    (Reference.world "RGB" true []) =
  Reference.turn_on (Reference.only_color_temp 250)
    (Reference.world "RGB" true []).
Proof.
  pose proof (turn_on_first_match (Reference.only_color_temp 250)
                (Reference.world "RGB" true [])) as Hrun.
  cbn zeta in Hrun. destruct Hrun as (Hsame & _ & _).
  exact (Hsame (Reference.color_temp_and_rgb 250 (10, 20, 30))
           eq_refl eq_refl eq_refl).
Defined.

(** C4, the claim as stated fails: a bulb that is off receives the
    turn-on command before the unknown effect is rejected. *)
Lemma turn_on_unknown_effect_when_off :
  outcome (Reference.turn_on (Reference.only_effect "nonexistent_effect"))
    (Reference.world "RGB" false []) =
    Raise (ValueError "Unknown effect nonexistent_effect") ∧
  commands (Reference.turn_on (Reference.only_effect "nonexistent_effect"))
    (Reference.world "RGB" false []) = [async_turn_on] ∧
  commands (Reference.turn_on (Reference.only_effect "nonexistent_effect"))
    (Reference.world "RGB" false []) ≠ [].
Proof. by vm_compute. Qed.

Lemma turn_on_unknown_effect_witness :
  outcome (Reference.turn_on (Reference.only_effect "nonexistent_effect"))
    (Reference.world "RGB" true []) =
    Raise (ValueError "Unknown effect nonexistent_effect") ∧
  commands (Reference.turn_on (Reference.only_effect "nonexistent_effect"))
    (Reference.world "RGB" true []) = [].
Proof.
  pose proof (turn_on_unknown_effect
                (Reference.only_effect "nonexistent_effect")
                (Reference.world "RGB" true []) "nonexistent_effect"
                eq_refl eq_refl eq_refl eq_refl eq_refl eq_refl
                ltac:(vm_compute; discriminate) ltac:(vm_compute; discriminate))
    as Hrun.
  cbn zeta in Hrun. destruct Hrun as (Hraise & _ & Hnone).
  exact (conj Hraise (Hnone eq_refl)).
Defined.

(** C5, the claim as stated fails: a bulb that is off, asked for the
    custom effect with no colours configured, still receives the turn-on
    command. *)
Lemma turn_on_custom_effect_when_off :
  outcome (Reference.turn_on (Reference.only_effect "custom"))
    (Reference.world "RGB" false []) = Next tt ∧
  commands (Reference.turn_on (Reference.only_effect "custom"))
    (Reference.world "RGB" false []) = [async_turn_on] ∧
  commands (Reference.turn_on (Reference.only_effect "custom"))
    (Reference.world "RGB" false []) ≠ [].
Proof. by vm_compute. Qed.

Lemma turn_on_custom_effect_witness :
  commands (Reference.turn_on (Reference.only_effect "custom"))
    (Reference.world "RGB" true []) = [] ∧
  commands (Reference.turn_on (Reference.only_effect "custom"))
    (Reference.world "RGB" true [(255, 0, 0); (0, 0, 255)]) =
    [async_set_custom_pattern [(255, 0, 0); (0, 0, 255)] 50 "gradual"].
Proof.
  split.
  - pose proof (turn_on_custom_effect (Reference.only_effect "custom")
                  (Reference.world "RGB" true [])
                  eq_refl eq_refl eq_refl eq_refl eq_refl) as Hrun.
    cbn zeta in Hrun. destruct Hrun as (_ & Hempty & _).
    exact (proj2 (Hempty eq_refl) eq_refl).
  - pose proof (turn_on_custom_effect (Reference.only_effect "custom")
                  (Reference.world "RGB" true [(255, 0, 0); (0, 0, 255)])
                  eq_refl eq_refl eq_refl eq_refl eq_refl) as Hrun.
    cbn zeta in Hrun. destruct Hrun as (_ & _ & Hcolors).
    exact (Hcolors ltac:(vm_compute; discriminate)).
Defined.

(** C6, the claim as stated fails: for a bulb of 2700 to 6500 kelvin the
    warmest bound, the maximum mired, is the plain conversion of 2700
    kelvin; the offset sits on the minimum mired. *)
Lemma init_mired_range_warmest_bound :
  let this := entity (Reference.world "RGBWW" true []) in
  Entity._attr_min_mireds this = 155 ∧
  Entity._attr_max_mireds this = 370 ∧
  ¬ (Entity._attr_min_mireds this = color_temperature_kelvin_to_mired 6500 ∧
     Entity._attr_max_mireds this = color_temperature_kelvin_to_mired 2700 + 1).
Proof. vm_compute. split; [done |]. split; [done |]. by intros [? _]. Qed.

(** The code 0x30 names an effect whose code is 0x30. *)
Lemma EFFECT_MAP_round_trip_witness :
  ∃ name, EFFECT_ID_NAME !! 0x30 = Some name ∧ EFFECT_MAP !! name = Some 0x30.
Proof.
  pose proof EFFECT_MAP_round_trip as (_ & _ & _ & _ & _ & Hround).
  exact (Hround 0x30 ltac:(lia)).
Defined.

(** A bulb in RGB mode that is on, given an rgb colour and no brightness:
    the reported brightness 180 goes along. *)
Lemma turn_on_keeps_reported_brightness_witness :
  commands (Reference.turn_on (Reference.only_rgb_color (10, 20, 30)))
    (Reference.world "RGB" true []) =
  [async_set_levels (Some 10) (Some 20) (Some 30) None None (Some 180)].
Proof.
  pose proof (turn_on_keeps_reported_brightness
                (Reference.only_rgb_color (10, 20, 30))
                (Reference.world "RGB" true []) eq_refl) as Hrun.
  cbn zeta in Hrun. destruct Hrun as (_ & Hrgb & _).
  exact (Hrgb (10, 20, 30) eq_refl eq_refl).
Defined.


End examples.

(** ** Further runs on concrete inputs *)

Section more_examples.
#[local] Existing Instance Reference.color_util.
#[local] Existing Instance Reference.flux_utils.
#[local] Existing Instance Reference.const.
#[local] Existing Instance Reference.host.

(** Two bulbs reporting the RGB mode are in the same native mode. *)
Lemma color_mode_reports_witness :
  Device.color_mode (Reference.bulb "RGB" false) =
  Device.color_mode (Reference.bulb "RGB" true).
Proof.
  pose proof (color_mode_reports (Reference.bulb "RGB" true)) as [_ Hsame].
  exact (Hsame (Reference.bulb "RGB" false) eq_refl
           ltac:(vm_compute; discriminate)).
Defined.

(** A bulb built with the native modes RGBWW and CCT, now in CCT mode. *)
Lemma color_mode_supported_witness :
  FluxLight.color_mode (Reference.bulb "CCT" true) ∈
    Entity._attr_supported_color_modes
      (FluxLight.__init__ (Reference.bulb "RGBWW" true) [] 50 "gradual").
Proof.
  apply (color_mode_supported (Reference.bulb "RGBWW" true)
           (Reference.bulb "CCT" true) [] 50 "gradual").
  apply (bool_decide_unpack _). vm_compute. exact I.
Defined.

(** The effect list of a bulb built without custom colours. *)
Lemma init_effect_list_contents_witness :
  NoDup FLUX_EFFECT_LIST ∧ length FLUX_EFFECT_LIST = 21%nat.
Proof.
  pose proof (init_effect_list_contents (Reference.bulb "RGBWW" true) [] 50
                "gradual" FLUX_EFFECT_LIST ltac:(vm_compute; reflexivity))
    as (_ & Hnd & Hlen).
  exact (conj Hnd Hlen).
Defined.

(** A bulb of 2700 to 6500 kelvin reporting 6500 kelvin: the mired value
    it reports is one below the minimum it advertises. *)
Lemma color_temp_at_range_ends_witness :
  FluxLight.color_temp (Sample.at_kelvin 6500 (Reference.bulb "CCT" true)) =
  Entity._attr_min_mireds
    (FluxLight.__init__ (Reference.bulb "CCT" true) [] 50 "gradual") - 1.
Proof.
  pose proof (color_temp_at_range_ends (Reference.bulb "CCT" true)
                (Sample.at_kelvin 6500 (Reference.bulb "CCT" true))
                [] 50 "gradual") as Hends.
  cbn zeta in Hends. destruct Hends as [Hmax _].
  exact (proj1 (Hmax eq_refl)).
Defined.

(** The colour loop is asked of a bulb that is on. *)
Lemma issued_preset_in_table_witness :
  (0x25 ≤ 0x25 ≤ 0x38)%Z ∧ 50 = DEFAULT_EFFECT_SPEED ∧
  ∃ name, Kwargs.effect (Reference.only_effect "colorloop") = Some name ∧
          EFFECT_MAP !! name = Some 0x25.
Proof.
  apply (issued_preset_in_table (Reference.only_effect "colorloop")
           (Reference.world "RGB" true []) 0x25 50).
  apply (bool_decide_unpack _). vm_compute. exact I.
Defined.

(** The custom effect is asked of a bulb built with two colours. *)
Lemma issued_custom_pattern_stored_witness :
  [(255, 0, 0); (0, 0, 255)] ≠ [] ∧
  [(255, 0, 0); (0, 0, 255)] =
    Entity._custom_effect_colors
      (entity (Reference.world "RGB" true [(255, 0, 0); (0, 0, 255)])) ∧
  50 = Entity._custom_effect_speed_pct
         (entity (Reference.world "RGB" true [(255, 0, 0); (0, 0, 255)])) ∧
  "gradual" = Entity._custom_effect_transition
                (entity (Reference.world "RGB" true [(255, 0, 0); (0, 0, 255)])) ∧
  Kwargs.effect (Reference.only_effect "custom") = Some EFFECT_CUSTOM.
Proof.
  apply (issued_custom_pattern_stored (Reference.only_effect "custom")
           (Reference.world "RGB" true [(255, 0, 0); (0, 0, 255)])
           [(255, 0, 0); (0, 0, 255)] 50 "gradual").
  apply (bool_decide_unpack _). vm_compute. exact I.
Defined.

(** The colour loop goes out as code 0x25 and is reported back by name. *)
Lemma preset_effect_round_trip_witness :
  commands (Reference.turn_on (Reference.only_effect "colorloop"))
    (Reference.world "RGB" true []) = [async_set_preset_pattern 0x25 50] ∧
  FluxLight.effect (Sample.with_pattern 0x25 (Reference.bulb "RGB" true)) =
    Some "colorloop".
Proof.
  pose proof (preset_effect_round_trip (Reference.only_effect "colorloop")
                (Reference.world "RGB" true []) "colorloop" 0x25
                eq_refl eq_refl eq_refl eq_refl eq_refl
                ltac:(vm_compute; reflexivity)) as Hrun.
  cbn zeta in Hrun. destruct Hrun as (_ & Hcmd & Hback).
  exact (conj Hcmd (Hback (Sample.with_pattern 0x25 (Reference.bulb "RGB" true))
                      eq_refl)).
Defined.

(** The advertised effect RANDOM is accepted. *)
Lemma advertised_effect_accepted_witness :
  outcome (Reference.turn_on (Reference.only_effect "random"))
    (Reference.world "RGBWW" true []) = Next tt.
Proof.
  pose proof (advertised_effect_accepted (Reference.only_effect "random")
                (Reference.world "RGBWW" true []) "random"
                ltac:(eexists; split;
                      [vm_compute; reflexivity
                      | apply (bool_decide_unpack _); vm_compute; exact I])
                ltac:(by eexists _, _, _, _)
                eq_refl eq_refl eq_refl eq_refl eq_refl) as Hrun.
  cbn zeta in Hrun. exact (proj1 Hrun).
Defined.

(** The RANDOM effect on a bulb that is on draws three numbers. *)
Lemma random_effect_levels_witness :
  drawn (Reference.turn_on (Reference.only_effect "random")
           (Reference.world "RGB" true [])).2 = 3%nat.
Proof.
  pose proof (random_effect_levels (Reference.only_effect "random")
                (Reference.world "RGB" true [])
                eq_refl eq_refl eq_refl eq_refl eq_refl) as Hrun.
  cbn zeta in Hrun. exact (proj1 (proj2 Hrun)).
Defined.

(** A brightness alone draws nothing. *)
Lemma draws_only_for_random_witness :
  drawn (Reference.turn_on (Kwargs.only_brightness 128)
           (Reference.world "RGB" true [])).2 = 0%nat.
Proof.
  exact (draws_only_for_random (Kwargs.only_brightness 128)
           (Reference.world "RGB" true [])
           ltac:(vm_compute; discriminate)).
Defined.

(** A brightness alone on a bulb in RGB mode that is on: one command. *)
Lemma turn_on_command_count_witness :
  ∃ c, c ≠ async_turn_on ∧
       commands (Reference.turn_on (Kwargs.only_brightness 128))
         (Reference.world "RGB" true []) =
       (turn_on_sequence (device (Reference.world "RGB" true [])) ++ [c])%list.
Proof.
  pose proof (turn_on_command_count (Kwargs.only_brightness 128)
                (Reference.world "RGB" true [])) as Hrun.
  cbn zeta in Hrun. destruct Hrun as [_ Hone].
  exact (Hone ltac:(vm_compute; reflexivity) ltac:(vm_compute; reflexivity)
           ltac:(intros [Hrule _]; vm_compute in Hrule; discriminate)).
Defined.

(** The custom effect on a bulb that is on and built with two colours does
    what the service does with those colours. *)
Lemma custom_effect_same_as_service_witness :
  Reference.turn_on (Reference.only_effect "custom")
    (Reference.world "RGB" true [(255, 0, 0); (0, 0, 255)]) =
  Sample.set_custom_effect [(255, 0, 0); (0, 0, 255)] 50 "gradual"
    (Reference.world "RGB" true [(255, 0, 0); (0, 0, 255)]).
Proof.
  pose proof (custom_effect_same_as_service (Reference.only_effect "custom")
                (Reference.world "RGB" true [(255, 0, 0); (0, 0, 255)])
                eq_refl eq_refl eq_refl eq_refl eq_refl
                ltac:(vm_compute; discriminate)) as Hrun.
  cbn zeta in Hrun. destruct Hrun as [Hon _].
  exact (Hon eq_refl).
Defined.

(** An rgbw colour alone decides its command. *)
Lemma color_intent_from_bag_witness :
  ∃ c : Command, ∀ w : World,
    outcome (Reference.turn_on (Sample.only_rgbw_color (10, 20, 30, 40))) w = Next tt ∧
    commands (Reference.turn_on (Sample.only_rgbw_color (10, 20, 30, 40))) w =
      (turn_on_sequence (device w) ++ [c])%list.
Proof.
  apply (color_intent_from_bag (Sample.only_rgbw_color (10, 20, 30, 40)) eq_refl).
  right. split; [reflexivity |]. left. by eexists.
Defined.


(** Two refreshes in a row leave the log of commands as it is. *)
Lemma life_commands_grow_witness :
  sent (life (Reference.world "RGB" true [])
          [Refresh (Reference.bulb "CCT" true);
           Refresh (Reference.bulb "RGB" false)]) = [].
Proof.
  pose proof (life_commands_grow
                [Refresh (Reference.bulb "CCT" true);
                 Refresh (Reference.bulb "RGB" false)]
                (Reference.world "RGB" true [])) as [_ Hnone].
  exact (Hnone eq_refl).
Defined.
End more_examples.
